(** * NeoBuddy admin panel: the client-side reconciliation logic

    A shallow embedding of the event handlers and data-access functions of
    the admin dashboard (AdminPanel.tsx, components/RoomList.jsx,
    components/PromoCodeManager, components/PayoutManager.tsx and
    lib/supabase.js), with the properties the specification states about
    them.

    Conventions of the embedding:
    - a JS string is a [string], one character per code unit (code units
      below 256); [===] on strings is [String.eqb];
    - a JS number that the code only ever uses as an integer is a [Z]; where
      a NULL column can reach the code the field is an [option Z] and
      [ToNumber null = 0]; a NaN result is [None] of [jsnum];
    - a nullable field ([T | null]) is an [option];
    - the remote store is an explicit state threaded through a small
      state-and-exception monad that also records every request issued. *)

From Stdlib Require Import ZArith Lia Bool List Ascii String.
From stdpp Require Import base option list strings pretty gmap.

Local Open Scope string_scope.
Local Open Scope list_scope.
Local Open Scope Z_scope.

(** ** JavaScript values the code relies on *)

(** Truthiness of a string: only the empty string is falsy. *)
Definition truthy_str (s : string) : bool := negb (String.eqb s "").

(** Truthiness of a nullable string: [null] and the empty string are falsy. *)
Definition truthy_ostr (o : option string) : bool :=
  match o with
  | Some s => truthy_str s
  | None => false
  end.

(** [o === s] for a nullable string [o] and a string [s]. *)
Definition strict_eq_ostr (o : option string) (s : string) : bool :=
  match o with
  | Some d => String.eqb d s
  | None => false
  end.

(** A JS number that is an integer or NaN. *)
Definition jsnum := option Z.

(** [ToNumber] of a nullable integer column: [null] becomes 0. *)
Definition num_of_nullable (o : option Z) : Z := default 0 o.

(** Relational operators on numbers: any comparison with NaN is false. *)
Definition js_ge (a b : jsnum) : bool :=
  match a, b with
  | Some x, Some y => y <=? x
  | _, _ => false
  end.

Definition js_le (a b : jsnum) : bool :=
  match a, b with
  | Some x, Some y => x <=? y
  | _, _ => false
  end.

Definition js_gt (a b : jsnum) : bool :=
  match a, b with
  | Some x, Some y => y <? x
  | _, _ => false
  end.

(** [targetLength - s.length] copies of the pad character ['0']. *)
Fixpoint zeros (k : nat) : string :=
  match k with
  | O => ""
  | S k' => String "0"%char (zeros k')
  end.

(** [String(n).padStart(2, '0')] for an integer [n]: nothing is added when
    the text already has two characters or more. *)
Definition padStart2 (n : Z) : string :=
  let s := pretty n in
  zeros (2 - String.length s)%nat +:+ s.

(** The calendar date [YYYY-MM-DD] the handlers compare session dates with.
    [month0] is the zero-based month of [getMonth] / [getUTCMonth]. *)
Definition format_ymd (year month0 day : Z) : string :=
  pretty year +:+ "-" +:+ padStart2 (month0 + 1) +:+ "-" +:+ padStart2 day.

(** ** Data model (the TypeScript interfaces) *)

Module Room.
Record t := mk {
  id : string;
  name : string;
  description : string;
  url : string;
  max_users : Z;
  price_inr : Z;
  session_date : option string;
  session_start_time : option string;
  session_end_time : option string;
  current_users : option Z;
  created_at : option string
}.
End Room.

Module Session.
Record t := mk {
  id : string;
  room_id : string;
  username : string;
  rewards_left : Z;
  last_updated : string
}.
End Session.

Module PromoCode.
Record t := mk {
  id : string;
  code : string;
  influencer_id : string;
  discount_amount : Z;
  max_uses : Z;
  total_uses : option Z;
  expiry_date : option string;
  created_at : string
}.
End PromoCode.

(** A row of [influencer_withdrawals] as the JS object [select('*')] returns:
    its keys are the columns the table has. *)
Inductive JsVal :=
| VNull
| VStr (s : string)
| VNum (n : Z).

Abbreviation JsObject := (gmap string JsVal).

(** The [WithdrawalRequest] the payout screen keeps selected; only its id is
    read by the reject path. *)
Module WithdrawalRequest.
Record t := mk {
  id : string;
  influencer_id : string;
  amount : Z;
  status : string;
  notes : option string
}.
End WithdrawalRequest.

(** A change event of the realtime feed. A snapshot that is [null] or
    missing is [None]. *)
Inductive EventType := INSERT | UPDATE | DELETE.

Record Payload (A : Type) := mkPayload {
  eventType : EventType;
  new : option A;
  old : option A
}.
Arguments mkPayload {A}.
Arguments eventType {A}.
Arguments new {A}.
Arguments old {A}.

(** ** Session-list reconciler (AdminPanel.tsx, channel [rooms-changes]) *)

(** [prev.some(room => room.id === rid)] *)
Definition some_id (rid : string) (prev : list Room.t) : bool :=
  existsb (fun room => String.eqb (Room.id room) rid) prev.

(** The [INSERT] branch: the function given to [setRooms]. *)
Definition rooms_on_insert (todayStr : string) (newRoom : Room.t)
    (prev : list Room.t) : list Room.t :=
  if negb (strict_eq_ostr (Room.session_date newRoom) todayStr) then prev
  else if some_id (Room.id newRoom) prev then prev
  else newRoom :: prev.

(** The [UPDATE] branch. *)
Definition rooms_on_update (todayStr : string) (updatedRoom : Room.t)
    (prev : list Room.t) : list Room.t :=
  if negb (some_id (Room.id updatedRoom) prev)
     && negb (strict_eq_ostr (Room.session_date updatedRoom) todayStr)
  then prev
  else map (fun room =>
              if String.eqb (Room.id room) (Room.id updatedRoom)
              then updatedRoom else room) prev.

(** The [DELETE] branch. *)
Definition rooms_on_delete (deletedRoom : Room.t) (prev : list Room.t)
    : list Room.t :=
  List.filter (fun room => negb (String.eqb (Room.id room) (Room.id deletedRoom)))
         prev.

(** The callback of the [rooms] subscription, as the function it applies to
    the list: it reads [payload.new] on insert and update and [payload.old]
    on delete; reading a field of a missing snapshot throws ([None]).
    [todayStr] is the UTC calendar date when the event arrives. *)
Definition roomSubscription (todayStr : string) (payload : Payload Room.t)
    (prev : list Room.t) : option (list Room.t) :=
  match eventType payload with
  | INSERT =>
      match new payload with
      | Some newRoom => Some (rooms_on_insert todayStr newRoom prev)
      | None => None
      end
  | UPDATE =>
      match new payload with
      | Some updatedRoom => Some (rooms_on_update todayStr updatedRoom prev)
      | None => None
      end
  | DELETE =>
      match old payload with
      | Some deletedRoom => Some (rooms_on_delete deletedRoom prev)
      | None => None
      end
  end.

(** ** The remote store, and the requests the client issues to it *)

Record DB := mkDB {
  rooms : gmap string Room.t;
  user_sessions : list Session.t;
  influencer_withdrawals : gmap string JsObject
}.

(** One constructor per query the modelled functions build. *)
Inductive Request :=
| SelectRoomSingle (id : string)
| UpdateRoomCurrentUsers (id : string) (newCount : Z)
| DeleteUserSessions (room_id : string)
| DeleteRoom (id : string)
| SelectWithdrawalSingle (id : string)
| UpdateWithdrawal (id : string) (updateObj : JsObject).

(** The world a data-access function runs in: the store, the faults the
    network or the store will answer the coming requests with (the head is
    consumed by the next request; [Some msg] makes it fail with [msg] and
    leaves the store untouched; an exhausted list means no more faults), and
    the requests issued so far, oldest first. *)
Record World := mkWorld {
  db : DB;
  faults : list (option string);
  log : list Request
}.

(** The [{ data, error }] pair every query resolves to. *)
Record Response (A : Type) := mkResponse {
  data : option A;
  error : option string
}.
Arguments mkResponse {A}.
Arguments data {A}.
Arguments error {A}.

(** Computations over the world that may throw: [inl msg] is a thrown error
    whose [message] is [msg]. *)
Definition M (A : Type) : Type := World -> (string + A) * World.

Definition ret {A} (a : A) : M A := fun w => (inr a, w).

Definition throw {A} (msg : string) : M A := fun w => (inl msg, w).

Definition bind {A B} (m : M A) (k : A -> M B) : M B :=
  fun w =>
    match m w with
    | (inl e, w') => (inl e, w')
    | (inr a, w') => k a w'
    end.

(** [try { body } catch (error) { handler(error.message) }] *)
Definition try_catch {A} (body : M A) (handler : string -> M A) : M A :=
  fun w =>
    match body w with
    | (inl e, w') => handler e w'
    | (inr a, w') => (inr a, w')
    end.

Notation "'let*' x ':=' m 'in' k" := (bind m (fun x => k))
  (at level 10, x name, m at level 100, k at level 200).
Notation "m '>>' k" := (bind m (fun _ => k))
  (at level 61, k at level 61, only parsing).

(** Issue a request: log it, consume one fault, and unless it fails let the
    store answer. *)
Definition request {A} (r : Request) (answer : DB -> Response A * DB)
    : M (Response A) :=
  fun w =>
    match faults w with
    | Some msg :: fs =>
        (inr (mkResponse None (Some msg)), mkWorld (db w) fs (log w ++ [r]))
    | None :: fs =>
        let '(resp, db') := answer (db w) in
        (inr resp, mkWorld db' fs (log w ++ [r]))
    | [] =>
        let '(resp, db') := answer (db w) in
        (inr resp, mkWorld db' [] (log w ++ [r]))
    end.

(** The error [.single()] reports when the filter matches no row. *)
Definition PGRST116 : string := "JSON object requested, multiple (or no) rows returned".

Definition set_current_users (n : Z) (room : Room.t) : Room.t :=
  Room.mk (Room.id room) (Room.name room) (Room.description room)
          (Room.url room) (Room.max_users room) (Room.price_inr room)
          (Room.session_date room) (Room.session_start_time room)
          (Room.session_end_time room) (Some n) (Room.created_at room).

(** [supabase.from('rooms').select('*').eq('id', id).single()] *)
Definition rooms_select_single (id : string) : M (Response Room.t) :=
  request (SelectRoomSingle id) (fun d =>
    match rooms d !! id with
    | Some room => (mkResponse (Some room) None, d)
    | None => (mkResponse None (Some PGRST116), d)
    end).

(** [supabase.from('rooms').update({ current_users: n }).eq('id', id)]:
    a filter that matches no row updates nothing and is no error. *)
Definition rooms_update_current_users (id : string) (n : Z)
    : M (Response unit) :=
  request (UpdateRoomCurrentUsers id n) (fun d =>
    (mkResponse (Some tt) None,
     mkDB (alter (set_current_users n) id (rooms d)) (user_sessions d)
          (influencer_withdrawals d))).

(** [supabase.from('user_sessions').delete().eq('room_id', id)] *)
Definition user_sessions_delete (id : string) : M (Response unit) :=
  request (DeleteUserSessions id) (fun d =>
    (mkResponse (Some tt) None,
     mkDB (rooms d)
          (List.filter (fun s => negb (String.eqb (Session.room_id s) id))
                       (user_sessions d))
          (influencer_withdrawals d))).

(** [supabase.from('rooms').delete().eq('id', id)] *)
Definition rooms_delete (id : string) : M (Response unit) :=
  request (DeleteRoom id) (fun d =>
    (mkResponse (Some tt) None,
     mkDB (delete id (rooms d)) (user_sessions d) (influencer_withdrawals d))).

(** [supabase.from('influencer_withdrawals').select('*').eq('id', id).single()] *)
Definition withdrawals_select_single (id : string) : M (Response JsObject) :=
  request (SelectWithdrawalSingle id) (fun d =>
    match influencer_withdrawals d !! id with
    | Some row => (mkResponse (Some row) None, d)
    | None => (mkResponse None (Some PGRST116), d)
    end).

(** [supabase.from('influencer_withdrawals').update(obj).eq('id', id).select()]:
    the fields of [obj] overwrite those of the matching row; the updated rows
    are returned. *)
Definition withdrawals_update (id : string) (updateObj : JsObject)
    : M (Response (list JsObject)) :=
  request (UpdateWithdrawal id updateObj) (fun d =>
    (mkResponse
       (Some (match influencer_withdrawals d !! id with
              | Some row => [updateObj ∪ row]
              | None => []
              end))
       None,
     mkDB (rooms d) (user_sessions d)
          (alter (fun row => updateObj ∪ row) id (influencer_withdrawals d)))).

(** ** Occupancy updater (AdminPanel.tsx) *)

(** [x || 0] for a nullable integer. *)
Definition or_zero (o : option Z) : Z :=
  match o with
  | Some n => if n =? 0 then 0 else n
  | None => 0
  end.

(** The first half of [updateRoomUserCount], up to the second [await]: fetch
    the room and compute [newCount]. *)
Definition fetch_phase (roomId : string) (change : Z) : M Z :=
  let* resp := rooms_select_single roomId in
  match error resp with
  | Some fetchError => throw fetchError
  | None =>
      match data resp with
      | Some room => ret (Z.max 0 (or_zero (Room.current_users room) + change))
      | None => throw "TypeError: room is null"
      end
  end.

(** The second half: write [newCount] back. *)
Definition write_phase (roomId : string) (newCount : Z) : M unit :=
  let* resp := rooms_update_current_users roomId newCount in
  match error resp with
  | Some updateError => throw updateError
  | None => ret tt
  end.

Definition updateRoomUserCount (roomId : string) (change : Z) : M unit :=
  try_catch
    (let* newCount := fetch_phase roomId change in write_phase roomId newCount)
    (fun _ => ret tt).

(** A call [updateRoomUserCount(roomId, change)] the handler awaits. *)
Definition Delta : Type := string * Z.

(** What one run of the [sessions-changes] handler does: the calls it made,
    in order, and whether it ended by throwing a [TypeError] (reading a field
    of a missing snapshot). *)
Record Handled := mkHandled {
  issued : list Delta;
  threw : bool
}.

Definition returns (calls : list Delta) : Handled := mkHandled calls false.
Definition throws : Handled := mkHandled [] true.

(** The callback of the [user_sessions] subscription. The three [if]s on
    [payload.eventType] are exclusive, so they are one [match]; the [return]
    inside the [UPDATE] block ends the handler. *)
Definition sessionSubscription (payload : Payload Session.t) : Handled :=
  let session :=
    match new payload with
    | Some s => Some s
    | None => old payload
    end in
  match session with
  | None => returns []
  | Some session =>
      if negb (truthy_str (Session.room_id session)) then returns []
      else
        let roomId := Session.room_id session in
        match eventType payload with
        | INSERT =>
            match new payload with
            | None => throws
            | Some sessionData =>
                if 0 <? Session.rewards_left sessionData
                then returns [(roomId, 1)]
                else returns []
            end
        | UPDATE =>
            match old payload, new payload with
            | Some oldSession, Some newSession =>
                if negb (String.eqb (Session.room_id oldSession)
                                    (Session.room_id newSession))
                then returns []
                else
                  returns
                    ((if (0 <? Session.rewards_left oldSession)
                         && (Session.rewards_left newSession <=? 0)
                      then [(roomId, -1)] else [])
                     ++
                     (if (Session.rewards_left oldSession <=? 0)
                         && (0 <? Session.rewards_left newSession)
                      then [(roomId, 1)] else []))
            | _, _ => throws
            end
        | DELETE =>
            match old payload with
            | None => throws
            | Some sessionData =>
                if 0 <? Session.rewards_left sessionData
                then returns [(roomId, -1)]
                else returns []
            end
        end
  end.

(** Awaiting the issued calls one after the other. *)
Fixpoint run_updates (calls : list Delta) : M unit :=
  match calls with
  | [] => ret tt
  | (roomId, change) :: rest =>
      updateRoomUserCount roomId change >> run_updates rest
  end.

(** The updater is not atomic: between its two [await]s other runs of it may
    start or finish. A schedule interleaves the halves of any number of
    calls: [Begin] runs a call's first half and parks the computed count,
    [Resume k] lets the [k]-th parked call perform its write. *)
Inductive Step :=
| Begin (roomId : string) (change : Z)
| Resume (k : nat).

Definition Parked : Type := list (string * Z).

Definition sched_step (st : Step) (pw : Parked * World) : Parked * World :=
  let '(parked, w) := pw in
  match st with
  | Begin roomId change =>
      match fetch_phase roomId change w with
      | (inr newCount, w') => (parked ++ [(roomId, newCount)], w')
      | (inl _, w') => (parked, w')
      end
  | Resume k =>
      match parked !! k with
      | Some (roomId, newCount) =>
          (take k parked ++ drop (S k) parked,
           snd (try_catch (write_phase roomId newCount) (fun _ => ret tt) w))
      | None => (parked, w)
      end
  end.

Definition run_schedule (sched : list Step) (pw : Parked * World)
    : Parked * World :=
  fold_left (fun acc st => sched_step st acc) sched pw.

(** The occupancy counter of a row, as every reader takes it. *)
Definition occupancy (room : Room.t) : Z := or_zero (Room.current_users room).

(** The writes among logged requests. *)
Definition written_counts (l : list Request) : list Z :=
  omap (fun r => match r with
                 | UpdateRoomCurrentUsers _ n => Some n
                 | _ => None
                 end) l.

(** ** Data-access layer (lib/supabase.js) *)

Module Lib.

(** [roomService.deleteRoom]; the result is the [error] field of the object
    it returns. *)
Definition deleteRoom (id : string) : M (option string) :=
  try_catch
    (let* r1 := user_sessions_delete id in
     match error r1 with
     | Some sessionsError => throw sessionsError
     | None =>
         let* r2 := rooms_delete id in
         match error r2 with
         | Some e => throw e
         | None => ret None
         end
     end)
    (fun message => ret (Some message)).

(** ['notes' in currentRecord] *)
Definition has_key (k : string) (o : JsObject) : bool :=
  match o !! k with
  | Some _ => true
  | None => false
  end.

(** [payoutService.rejectWithdrawal] of lib/supabase.js. *)
Definition rejectWithdrawal (id notes : string)
    : M (Response (list JsObject)) :=
  try_catch
    (let* r1 := withdrawals_select_single id in
     match error r1 with
     | Some fetchError => throw fetchError
     | None =>
         match data r1 with
         | None => throw "TypeError: currentRecord is null"
         | Some currentRecord =>
             let updateObj : JsObject := {[ "status" := VStr "rejected" ]} in
             let updateObj :=
               if has_key "notes" currentRecord
               then <[ "notes" := VStr notes ]> updateObj
               else updateObj in
             let* r2 := withdrawals_update id updateObj in
             match error r2 with
             | Some e => throw e
             | None => ret (mkResponse (data r2) None)
             end
         end
     end)
    (fun message => ret (mkResponse None (Some message))).

End Lib.

(** ** Payout screen (components/PayoutManager.tsx) *)

(** [String.prototype.trim] on code units below 256: TAB, LF, VT, FF, CR,
    SPACE and NO-BREAK SPACE are the white space and line terminators in
    that range. *)
Definition is_js_whitespace (c : ascii) : bool :=
  match N_of_ascii c with
  | 9%N | 10%N | 11%N | 12%N | 13%N | 32%N | 160%N => true
  | _ => false
  end.

Fixpoint trimStart (s : string) : string :=
  match s with
  | EmptyString => EmptyString
  | String c rest => if is_js_whitespace c then trimStart rest else s
  end.

Fixpoint trimEnd (s : string) : string :=
  match s with
  | EmptyString => EmptyString
  | String c rest =>
      let rest' := trimEnd rest in
      if is_js_whitespace c && String.eqb rest' "" then EmptyString
      else String c rest'
  end.

Definition trim (s : string) : string := trimEnd (trimStart s).

Inductive NotificationType := success | error_notification.

(** The component state the reject dialog reads and writes. *)
Record UiState := mkUi {
  showRejectModal : bool;
  selectedWithdrawal : option WithdrawalRequest.t;
  notes : string;
  notification : option NotificationType
}.

Module PayoutManager.

(** The component's own [payoutService.rejectWithdrawal], the one its
    handlers call. *)
Definition rejectWithdrawal (id notes : string)
    : M (Response (list JsObject)) :=
  try_catch
    (let* r := withdrawals_update id
                 (<[ "notes" := VStr notes ]> {[ "status" := VStr "rejected" ]}) in
     match error r with
     | Some e => throw e
     | None => ret (mkResponse (data r) None)
     end)
    (fun message => ret (mkResponse None (Some message))).

(** [handleConfirmReject]. [if (error) throw new Error(error)] tests the
    message string that [rejectWithdrawal] returns, so an empty message
    counts as no error. *)
Definition handleConfirmReject (ui : UiState) : M UiState :=
  match selectedWithdrawal ui with
  | None => ret ui
  | Some selected =>
      if negb (truthy_str (trim (notes ui))) then ret ui
      else
        try_catch
          (let* r := rejectWithdrawal (WithdrawalRequest.id selected) (notes ui) in
           if truthy_ostr (error r) then throw (default "" (error r))
           else ret (mkUi false None "" (Some success)))
          (fun _ =>
             ret (mkUi (showRejectModal ui) (selectedWithdrawal ui) (notes ui)
                       (Some error_notification)))
  end.

End PayoutManager.

(** ** Session-window status classifier (components/RoomList.jsx) *)

(** The local-time fields of [new Date()] that the classifier reads. *)
Record LocalNow := mkNow {
  getFullYear : Z;
  getMonth : Z;
  getDate : Z;
  getHours : Z;
  getMinutes : Z
}.

(** A [Date] object as far as its local hour and minute go. *)
Inductive DateObj :=
| InvalidDate
| TimeOfDay (hours minutes : Z).

Definition Date_getHours (d : DateObj) : jsnum :=
  match d with
  | InvalidDate => None
  | TimeOfDay h _ => Some h
  end.

Definition Date_getMinutes (d : DateObj) : jsnum :=
  match d with
  | InvalidDate => None
  | TimeOfDay _ m => Some m
  end.

(** [h * 60 + m] on numbers that may be NaN. *)
Definition minutes_of (h m : jsnum) : jsnum :=
  match h, m with
  | Some h, Some m => Some (h * 60 + m)
  | _, _ => None
  end.

(** [date.setHours(hours, minutes, seconds)] on today's date: a NaN argument
    gives an Invalid Date; otherwise the time of day is normalised, hours and
    minutes outside their range carrying over (daylight-saving shifts and the
    limits of the time range are left out). *)
Definition setHours (hours minutes : jsnum) (seconds : Z) : DateObj :=
  match hours, minutes with
  | Some h, Some m =>
      let t := h * 3600 + m * 60 + seconds in
      TimeOfDay ((t / 3600) mod 24) ((t / 60) mod 60)
  | _, _ => InvalidDate
  end.

(** [s.split(sep)] for a one-character separator. *)
Fixpoint split (sep : ascii) (s : string) : list string :=
  match s with
  | EmptyString => [EmptyString]
  | String c rest =>
      if Ascii.eqb c sep then EmptyString :: split sep rest
      else match split sep rest with
           | piece :: pieces => String c piece :: pieces
           | [] => [String c EmptyString]
           end
  end.

(** [s.includes(c)] for a one-character needle. *)
Fixpoint includes (c : ascii) (s : string) : bool :=
  match s with
  | EmptyString => false
  | String c' rest => Ascii.eqb c' c || includes c rest
  end.

Inductive Badge := Inactive | Full | Active.

Section Classifier.

(** The two runtime functions the classifier calls on strings: [Number(s)],
    taken to yield an integer or NaN, and the local time of day of
    [new Date(s)]. *)
Variable Number : string -> jsnum.
Variable Date_parse : string -> DateObj.

Definition parseTimeString (timeStr : option string) : option DateObj :=
  match timeStr with
  | None => None
  | Some timeStr =>
      if negb (truthy_str timeStr) then None
      else if includes "T"%char timeStr then Some (Date_parse timeStr)
      else
        let parts := map Number (split ":"%char timeStr) in
        let hours := mjoin (parts !! 0%nat) in
        let minutes := mjoin (parts !! 1%nat) in
        let seconds := mjoin (parts !! 2%nat) in
        Some (setHours hours minutes (or_zero seconds))
  end.

(** [room.current_users >= room.max_users] *)
Definition isFull (room : Room.t) : bool :=
  Room.max_users room <=? num_of_nullable (Room.current_users room).

(** The value of [isActive] when the final [if] is reached. *)
Definition isActive (now : LocalNow) (room : Room.t) : bool :=
  match parseTimeString (Room.session_start_time room),
        parseTimeString (Room.session_end_time room) with
  | Some startTime, Some endTime =>
      let todayFormatted :=
        format_ymd (getFullYear now) (getMonth now) (getDate now) in
      let isCorrectDate :=
        strict_eq_ostr
          (if truthy_ostr (Room.session_date room)
           then Room.session_date room else None)
          todayFormatted in
      let currentMinutes := Some (getHours now * 60 + getMinutes now) in
      let startMinutes :=
        minutes_of (Date_getHours startTime) (Date_getMinutes startTime) in
      let endMinutes :=
        minutes_of (Date_getHours endTime) (Date_getMinutes endTime) in
      let isWithinTimeRange :=
        js_ge currentMinutes startMinutes && js_le currentMinutes endMinutes in
      isCorrectDate && isWithinTimeRange
  | _, _ => false
  end.

Definition getStatusBadge (now : LocalNow) (room : Room.t) : Badge :=
  if negb (isActive now room) then Inactive
  else if isFull room then Full
  else Active.

End Classifier.

(** [Number] on the pieces of a [HH:MM:SS] time: a run of decimal digits is
    its value and the empty string is 0. Every other text is NaN here (the
    runtime also reads signs, fractions, exponents and surrounding blanks,
    which such a time does not contain). *)
Definition digit_value (c : ascii) : option Z :=
  let n := Z.of_N (N_of_ascii c) in
  if (48 <=? n) && (n <=? 57) then Some (n - 48) else None.

Fixpoint digits_value (acc : Z) (s : string) : jsnum :=
  match s with
  | EmptyString => Some acc
  | String c rest =>
      match digit_value c with
      | Some d => digits_value (acc * 10 + d) rest
      | None => None
      end
  end.

Definition Number_digits (s : string) : jsnum := digits_value 0 s.

(** ** Promo codes (components/PromoCodeManager) *)

Section Promo.

(** The time value of [new Date(s)], NaN when [s] is no date. *)
Variable Date_valueOf : string -> jsnum.

(** The condition of the status badge, at the time value [now] of
    [new Date()]. *)
Definition promo_is_active (now : Z) (code : PromoCode.t) : bool :=
  (num_of_nullable (PromoCode.total_uses code) <? PromoCode.max_uses code)
  && match PromoCode.expiry_date code with
     | None => true
     | Some expiry =>
         negb (truthy_str expiry) || js_gt (Date_valueOf expiry) (Some now)
     end.

Definition promo_badge (now : Z) (code : PromoCode.t) : string :=
  if promo_is_active now code then "Active" else "Expired".

End Promo.

(** ** The operator's delete button (AdminPanel.tsx) *)

(** [handleDeleteRoom]: the new value of the [rooms] state and the
    notification shown. [if (error) throw error] tests the message string
    that [deleteRoom] returns, so an empty message counts as no error. *)
Definition handleDeleteRoom (roomId : string) (prev : list Room.t)
    : M (list Room.t * NotificationType) :=
  try_catch
    (let* error := Lib.deleteRoom roomId in
     if truthy_ostr error then throw (default "" error)
     else
       ret (List.filter (fun room => negb (String.eqb (Room.id room) roomId))
                        prev,
            success))
    (fun _ => ret (prev, error_notification)).

(** ** Time fields of the room forms (AddRoomForm.jsx, RoomList.jsx) *)

(** The character class [[lo-hi]], on code units. *)
Definition in_range (lo hi : N) (c : ascii) : bool :=
  ((lo <=? N_of_ascii c) && (N_of_ascii c <=? hi))%N.

(** [isValidTimeFormat]: the test of [/^([0-1]?[0-9]|2[0-3]):[0-5][0-9]$/].
    A match is one hour digit or two, a colon and two minute digits; with
    two hour digits the first alternative takes [0-1][0-9] and the second
    [2][0-3]. *)
Definition isValidTimeFormat (timeString : string) : bool :=
  match timeString with
  | String h (String c (String m1 (String m2 EmptyString))) =>
      in_range 48 57 h
      && Ascii.eqb c ":" && in_range 48 53 m1 && in_range 48 57 m2
  | String h1 (String h2 (String c (String m1 (String m2 EmptyString)))) =>
      ((in_range 48 49 h1 && in_range 48 57 h2)
       || (Ascii.eqb h1 "2" && in_range 48 51 h2))
      && Ascii.eqb c ":" && in_range 48 53 m1 && in_range 48 57 m2
  | _ => false
  end.

(** [n.toString()] for a number that is an integer or NaN. *)
Definition Number_toString (n : jsnum) : string :=
  match n with
  | Some z => pretty z
  | None => "NaN"
  end.

(** [s.padStart(2, '0')] *)
Definition padStart2_str (s : string) : string :=
  zeros (2 - String.length s)%nat +:+ s.

Section TimeForm.

Variable Number : string -> jsnum.

(** [formatTimeForSupabase]; [None] is the [TypeError] of calling
    [toString] on the missing second piece. *)
Definition formatTimeForSupabase (timeString : string) : option string :=
  let parts := map Number (split ":"%char timeString) in
  match parts !! 0%nat, parts !! 1%nat with
  | Some hours, Some minutes =>
      Some (padStart2_str (Number_toString hours) +:+ ":"
            +:+ padStart2_str (Number_toString minutes) +:+ ":00")
  | _, _ => None
  end.

End TimeForm.

(** [a < b] on strings: the first differing code unit decides, a proper
    prefix is smaller. *)
Fixpoint js_str_lt (a b : string) : bool :=
  match a, b with
  | _, EmptyString => false
  | EmptyString, String _ _ => true
  | String x a', String y b' =>
      if (N_of_ascii x <? N_of_ascii y)%N then true
      else if (N_of_ascii y <? N_of_ascii x)%N then false
      else js_str_lt a' b'
  end.

(** [a >= b] on strings. *)
Definition js_str_ge (a b : string) : bool := negb (js_str_lt a b).

(** The time part of [validateForm] / [validateEditForm]: the values of
    [newErrors.start_time] and [newErrors.end_time]. *)
Definition validate_times (start_time end_time : string)
    : option string * option string :=
  (if negb (truthy_str start_time) then Some "Start time is required" else None,
   if truthy_str start_time && truthy_str end_time
      && js_str_ge start_time end_time
   then Some "End time must be after start time"
   else if negb (truthy_str end_time) then Some "End time is required"
   else None).

(** ** Promo code form and feed (components/PromoCodeManager) *)

(** Every code unit of the text satisfies [p]. *)
Fixpoint all_chars (p : ascii -> bool) (s : string) : bool :=
  match s with
  | EmptyString => true
  | String c rest => p c && all_chars p rest
  end.

(** The class [[A-Z0-9_]]. *)
Definition code_char (c : ascii) : bool :=
  in_range 65 90 c || in_range 48 57 c || Ascii.eqb c "_".

(** The [code] part of [validateForm]: the value of [newErrors.code]. *)
Definition validate_code (code : string) : option string :=
  if negb (truthy_str (trim code)) then Some "Promo code is required"
  else if negb (truthy_str code && all_chars code_char code)
  then Some "Promo code should contain only uppercase letters, numbers, and underscores"
  else None.

Definition promoCodes_on_insert (newPromoCode : PromoCode.t)
    (prev : list PromoCode.t) : list PromoCode.t :=
  if existsb (fun code => String.eqb (PromoCode.id code) (PromoCode.id newPromoCode))
             prev
  then prev
  else prev ++ [newPromoCode].

Definition promoCodes_on_update (updatedPromoCode : PromoCode.t)
    (prev : list PromoCode.t) : list PromoCode.t :=
  map (fun code =>
         if String.eqb (PromoCode.id code) (PromoCode.id updatedPromoCode)
         then updatedPromoCode else code) prev.

Definition promoCodes_on_delete (deletedPromoCode : PromoCode.t)
    (prev : list PromoCode.t) : list PromoCode.t :=
  List.filter (fun code =>
                 negb (String.eqb (PromoCode.id code) (PromoCode.id deletedPromoCode)))
              prev.

(** The callback of the [promo_codes] subscription; its three [if]s on the
    event type are exclusive. *)
Definition promoCodeSubscription (payload : Payload PromoCode.t)
    (prev : list PromoCode.t) : option (list PromoCode.t) :=
  match eventType payload with
  | INSERT =>
      match new payload with
      | Some newPromoCode => Some (promoCodes_on_insert newPromoCode prev)
      | None => None
      end
  | UPDATE =>
      match new payload with
      | Some updatedPromoCode => Some (promoCodes_on_update updatedPromoCode prev)
      | None => None
      end
  | DELETE =>
      match old payload with
      | Some deletedPromoCode => Some (promoCodes_on_delete deletedPromoCode prev)
      | None => None
      end
  end.

(** ** Withdrawal feed (components/PayoutManager.tsx) *)

Definition withdrawals_on_insert (newWithdrawal : WithdrawalRequest.t)
    (prev : list WithdrawalRequest.t) : list WithdrawalRequest.t :=
  if existsb (fun w => String.eqb (WithdrawalRequest.id w)
                                  (WithdrawalRequest.id newWithdrawal)) prev
  then prev
  else newWithdrawal :: prev.

Definition withdrawals_on_update (updatedWithdrawal : WithdrawalRequest.t)
    (prev : list WithdrawalRequest.t) : list WithdrawalRequest.t :=
  map (fun w =>
         if String.eqb (WithdrawalRequest.id w)
                       (WithdrawalRequest.id updatedWithdrawal)
         then updatedWithdrawal else w) prev.

Definition withdrawals_on_delete (deletedWithdrawal : WithdrawalRequest.t)
    (prev : list WithdrawalRequest.t) : list WithdrawalRequest.t :=
  List.filter (fun w =>
                 negb (String.eqb (WithdrawalRequest.id w)
                                  (WithdrawalRequest.id deletedWithdrawal)))
              prev.

Definition withdrawalSubscription (payload : Payload WithdrawalRequest.t)
    (prev : list WithdrawalRequest.t) : option (list WithdrawalRequest.t) :=
  match eventType payload with
  | INSERT =>
      match new payload with
      | Some newWithdrawal => Some (withdrawals_on_insert newWithdrawal prev)
      | None => None
      end
  | UPDATE =>
      match new payload with
      | Some updatedWithdrawal => Some (withdrawals_on_update updatedWithdrawal prev)
      | None => None
      end
  | DELETE =>
      match old payload with
      | Some deletedWithdrawal => Some (withdrawals_on_delete deletedWithdrawal prev)
      | None => None
      end
  end.

(** ** Status banner editor (components/StatusMessageManager.tsx) *)

Definition MAX_CHARACTERS : nat := 100.

Record BannerState := mkBanner {
  statusMessage : string;
  originalMessage : string;
  characterCount : nat;
  hasUnsavedChanges : bool
}.

(** [handleInputChange], on the new value of the text area. *)
Definition handleInputChange (value : string) (st : BannerState) : BannerState :=
  if (String.length value <=? MAX_CHARACTERS)%nat
  then mkBanner value (originalMessage st) (String.length value)
                (negb (String.eqb value (originalMessage st)))
  else st.

(** ** Status message service (lib/supabase.js) *)

Module StatusMessage.
Record t := mk {
  id : string;
  message : string;
  created_at : string;
  updated_at : string
}.
End StatusMessage.

(** The queries of [statusMessageService] on the [status_message] table. *)
Inductive BannerRequest :=
| SelectLatestMessage
| UpdateMessage (id message updated_at : string)
| InsertMessage (message created_at updated_at : string)
| DeleteMessage (id : string).

(** The table, the coming faults and the requests issued, as in [World]. *)
Record BannerWorld := mkBannerWorld {
  status_message : list StatusMessage.t;
  banner_faults : list (option string);
  banner_log : list BannerRequest
}.

Definition B (A : Type) : Type := BannerWorld -> (string + A) * BannerWorld.

Definition bret {A} (a : A) : B A := fun w => (inr a, w).

Definition bthrow {A} (msg : string) : B A := fun w => (inl msg, w).

Definition bbind {A C} (m : B A) (k : A -> B C) : B C :=
  fun w =>
    match m w with
    | (inl e, w') => (inl e, w')
    | (inr a, w') => k a w'
    end.

Definition btry_catch {A} (body : B A) (handler : string -> B A) : B A :=
  fun w =>
    match body w with
    | (inl e, w') => handler e w'
    | (inr a, w') => (inr a, w')
    end.

Notation "'let+' x ':=' m 'in' k" := (bbind m (fun x => k))
  (at level 10, x name, m at level 100, k at level 200).

Definition banner_request {A} (r : BannerRequest)
    (answer : list StatusMessage.t -> Response A * list StatusMessage.t)
    : B (Response A) :=
  fun w =>
    match banner_faults w with
    | Some msg :: fs =>
        (inr (mkResponse None (Some msg)),
         mkBannerWorld (status_message w) fs (banner_log w ++ [r]))
    | None :: fs =>
        let '(resp, rows) := answer (status_message w) in
        (inr resp, mkBannerWorld rows fs (banner_log w ++ [r]))
    | [] =>
        let '(resp, rows) := answer (status_message w) in
        (inr resp, mkBannerWorld rows [] (banner_log w ++ [r]))
    end.

Definition set_message (message updated_at : string) (row : StatusMessage.t)
    : StatusMessage.t :=
  StatusMessage.mk (StatusMessage.id row) message
                   (StatusMessage.created_at row) updated_at.

Section BannerService.

(** What the store and the clock contribute: the row that comes first when
    the table is ordered by [created_at] descending, the id given to an
    inserted row, and the text of [new Date().toISOString()]. *)
Variable latest : list StatusMessage.t -> option StatusMessage.t.
Variable fresh_id : list StatusMessage.t -> string.
Variable now : string.

(** [.select('*').order('created_at', { ascending: false }).limit(1)] *)
Definition status_select_latest : B (Response (list StatusMessage.t)) :=
  banner_request SelectLatestMessage (fun rows =>
    (mkResponse (Some (match latest rows with
                       | Some row => [row]
                       | None => []
                       end)) None,
     rows)).

(** [.update({ message, updated_at }).eq('id', id).select()] *)
Definition status_update (id message updated_at : string)
    : B (Response (list StatusMessage.t)) :=
  banner_request (UpdateMessage id message updated_at) (fun rows =>
    let rows' :=
      map (fun row => if String.eqb (StatusMessage.id row) id
                      then set_message message updated_at row else row) rows in
    (mkResponse
       (Some (List.filter (fun row => String.eqb (StatusMessage.id row) id) rows'))
       None,
     rows')).

(** [.insert({ message, created_at, updated_at }).select()] *)
Definition status_insert (message created_at updated_at : string)
    : B (Response (list StatusMessage.t)) :=
  banner_request (InsertMessage message created_at updated_at) (fun rows =>
    let row := StatusMessage.mk (fresh_id rows) message created_at updated_at in
    (mkResponse (Some [row]) None, rows ++ [row])).

(** [.delete().eq('id', id)] *)
Definition status_delete (id : string) : B (Response unit) :=
  banner_request (DeleteMessage id) (fun rows =>
    (mkResponse (Some tt) None,
     List.filter (fun row => negb (String.eqb (StatusMessage.id row) id)) rows)).

(** [data?.[0] || null] *)
Definition first_or_null {A} (data : option (list A)) : option A :=
  match data with
  | Some (x :: _) => Some x
  | _ => None
  end.

Definition getStatusMessage : B (Response StatusMessage.t) :=
  btry_catch
    (let+ r := status_select_latest in
     match error r with
     | Some e => bthrow e
     | None => bret (mkResponse (first_or_null (data r)) None)
     end)
    (fun message => bret (mkResponse None (Some message))).

Definition updateStatusMessage (message : string) : B (Response StatusMessage.t) :=
  btry_catch
    (let+ existing := getStatusMessage in
     let+ result :=
       match data existing with
       | Some existingMessage =>
           status_update (StatusMessage.id existingMessage) message now
       | None => status_insert message now now
       end in
     match error result with
     | Some e => bthrow e
     | None => bret (mkResponse (first_or_null (data result)) None)
     end)
    (fun message => bret (mkResponse None (Some message))).

(** The [data] of the result is [true] after a delete and [null] when there
    was nothing to delete. *)
Definition deleteStatusMessage : B (Response bool) :=
  btry_catch
    (let+ existing := getStatusMessage in
     match data existing with
     | None => bret (mkResponse None None)
     | Some existingMessage =>
         let+ r := status_delete (StatusMessage.id existingMessage) in
         match error r with
         | Some e => bthrow e
         | None => bret (mkResponse (Some true) None)
         end
     end)
    (fun message => bret (mkResponse None (Some message))).

End BannerService.

(** ** Notions the properties are stated with *)

(** The replacement the [UPDATE] branch maps over the list. *)
Definition replace_by_id (updatedRoom room : Room.t) : Room.t :=
  if String.eqb (Room.id room) (Room.id updatedRoom) then updatedRoom else room.

(** A room with the id [rid] is in the list. *)
Definition listed (rid : string) (prev : list Room.t) : Prop :=
  exists room, In room prev /\ Room.id room = rid.

(** The stored counter of a row is not negative (a NULL counter reads as 0). *)
Definition stored_nonneg (room : Room.t) : Prop :=
  forall n, Room.current_users room = Some n -> 0 <= n.

(** From [w] to [w'] requests were only added, every counter written by
    them is non-negative, and every room row is either as it was or holds a
    non-negative counter. *)
Definition grows (w w' : World) : Prop :=
  (exists l, log w' = log w ++ l /\ Forall (Z.le 0) (written_counts l))
  /\ (forall id room',
        rooms (db w') !! id = Some room' ->
        rooms (db w) !! id = Some room' \/
        exists n, Room.current_users room' = Some n /\ 0 <= n).

(** The [k]-th coming request meets no fault. *)
Definition no_fault (k : nat) (w : World) : Prop :=
  mjoin (faults w !! k) = None.

(** Every code unit of the text is white space (the empty text included). *)
Fixpoint whitespace_only (s : string) : bool :=
  match s with
  | EmptyString => true
  | String c rest => is_js_whitespace c && whitespace_only rest
  end.

(** The date-and-time gate of the classifier: both times parse to a valid
    time of day, the session is dated today, and the current minute of the
    day lies between the start and the end minute, both included. *)
Definition within_window (Number : string -> jsnum)
    (Date_parse : string -> DateObj) (now : LocalNow) (room : Room.t) : Prop :=
  exists sh sm eh em,
    parseTimeString Number Date_parse (Room.session_start_time room)
    = Some (TimeOfDay sh sm)
    /\ parseTimeString Number Date_parse (Room.session_end_time room)
       = Some (TimeOfDay eh em)
    /\ Room.session_date room
       = Some (format_ymd (getFullYear now) (getMonth now) (getDate now))
    /\ sh * 60 + sm <= getHours now * 60 + getMinutes now <= eh * 60 + em.

(** A promo code without an expiry date: the field is null or empty. *)
Definition no_expiry (code : PromoCode.t) : Prop :=
  PromoCode.expiry_date code = None \/ PromoCode.expiry_date code = Some "".

(** A promo code whose expiry date lies after [now]. *)
Definition expires_after (Date_valueOf : string -> jsnum) (now : Z)
    (code : PromoCode.t) : Prop :=
  exists expiry t,
    PromoCode.expiry_date code = Some expiry
    /\ Date_valueOf expiry = Some t /\ now < t.

(** Every room of the list is dated [todayStr]. *)
Definition all_dated (todayStr : string) (l : list Room.t) : Prop :=
  Forall (fun room => Room.session_date room = Some todayStr) l.

(** The world after a request that went through: one fault consumed, the
    request logged. *)
Definition after_request (r : Request) (d : DB) (w : World) : World :=
  mkWorld d (drop 1 (faults w)) (log w ++ [r]).

(** The store with the counter of room [roomId] set to [n]. *)
Definition with_counter (roomId : string) (n : Z) (d : DB) : DB :=
  mkDB (alter (set_current_users n) roomId (rooms d)) (user_sessions d)
       (influencer_withdrawals d).

(** A list-of-records feed keyed by an id, as the three subscriptions
    write it: insert at the front or at the back unless the id is listed,
    replace by id, remove by id. *)
Section Feed.

Context {A : Type} (key : A -> string).

Definition feed_listed (k : string) (l : list A) : bool :=
  existsb (fun x => String.eqb (key x) k) l.

Definition feed_insert_front (a : A) (l : list A) : list A :=
  if feed_listed (key a) l then l else a :: l.

Definition feed_insert_back (a : A) (l : list A) : list A :=
  if feed_listed (key a) l then l else l ++ [a].

Definition feed_update (a : A) (l : list A) : list A :=
  map (fun x => if String.eqb (key x) (key a) then a else x) l.

Definition feed_delete (a : A) (l : list A) : list A :=
  List.filter (fun x => negb (String.eqb (key x) (key a))) l.

End Feed.

(** The text is made of decimal digits only. *)
Definition digits_only (s : string) : bool := all_chars (in_range 48 57) s.

(** The minute of the day a time text [H:MM] or [HH:MM] stands for. *)
Definition time_minutes (s : string) : option Z :=
  match map Number_digits (split ":"%char s) with
  | [Some h; Some m] => Some (h * 60 + m)
  | _ => None
  end.

(** [padStart2 n] is two digits, the tens and the units of [n]. *)
Definition pad2_ok (n : Z) : bool :=
  match padStart2 n with
  | String a (String b EmptyString) =>
      bool_decide (digit_value a = Some (n / 10))
      && bool_decide (digit_value b = Some (n mod 10))
  | _ => false
  end.

(** The banner editor shows a text within the limit, with its length. *)
Definition banner_ok (st : BannerState) : Prop :=
  (String.length (statusMessage st) <= MAX_CHARACTERS)%nat
  /\ characterCount st = String.length (statusMessage st).

(** The [k]-th coming request on the banner table meets no fault. *)
Definition banner_no_fault (k : nat) (w : BannerWorld) : Prop :=
  mjoin (banner_faults w !! k) = None.

(** The banner world after a request that was answered or refused: one
    fault consumed, the request logged. *)
Definition banner_after (r : BannerRequest) (rows : list StatusMessage.t)
    (w : BannerWorld) : BannerWorld :=
  mkBannerWorld rows (drop 1 (banner_faults w)) (banner_log w ++ [r]).

(** ** Sample data the examples run on *)

Definition room_demo : Room.t :=
  Room.mk "r1" "Studio" "GPU room" "https://pod.example/1" 10 50
          (Some "2025-03-14") (Some "09:00:00") (Some "17:00:00")
          (Some 0) (Some "2025-03-13T08:00:00Z").

Definition w_demo : World :=
  mkWorld (mkDB {[ "r1" := room_demo ]} [] ∅) [] [].

(** A participation record that belongs to no room, before and after its
    credits run out. *)
Definition stray_old : Session.t := Session.mk "s1" "" "alice" 5 "t0".
Definition stray_new : Session.t := Session.mk "s1" "" "alice" 0 "t1".

Definition member_old : Session.t := Session.mk "s2" "r1" "bob" 5 "t0".
Definition member_new : Session.t := Session.mk "s2" "r1" "bob" 0 "t1".

(** A store where the first request fails. *)
Definition w_denied : World :=
  mkWorld (mkDB {[ "r1" := room_demo ]} [member_old] ∅)
          [Some "permission denied"] [].

(** A withdrawal row of a table that has no [notes] column. *)
Definition row_legacy : JsObject :=
  <[ "id" := VStr "w1" ]> (<[ "status" := VStr "pending" ]> (<[ "amount" := VNum 500 ]> ∅)).

Definition w_legacy : World :=
  mkWorld (mkDB ∅ [] {[ "w1" := row_legacy ]}) [] [].

Definition request_w1 : WithdrawalRequest.t :=
  WithdrawalRequest.mk "w1" "inf1" 500 "pending" None.

(** The session of the sample room, at noon and at 20:00 of its day; no
    time string of the samples is an ISO date-time. *)
Definition now_noon : LocalNow := mkNow 2025 2 14 12 0.
Definition now_evening : LocalNow := mkNow 2025 2 14 20 0.
Definition no_iso (s : string) : DateObj := InvalidDate.

Definition with_occupancy (n : Z) : Room.t := set_current_users n room_demo.

Definition SAVE20 (total_uses : Z) : PromoCode.t :=
  PromoCode.mk "p1" "SAVE20" "inf1" 20 50 (Some total_uses) None
               "2025-01-01T00:00:00Z".
Definition no_dates (s : string) : jsnum := None.

(** A second listed room, the sample room rescheduled to the next day, and
    a room of the next day that is not listed. *)
Definition room_other : Room.t :=
  Room.mk "r2" "Lab" "CPU room" "https://pod.example/2" 4 20
          (Some "2025-03-14") (Some "10:00:00") (Some "11:00:00")
          (Some 1) (Some "2025-03-13T09:00:00Z").

Definition room_moved : Room.t :=
  Room.mk "r1" "Studio" "GPU room" "https://pod.example/1" 10 50
          (Some "2025-03-15") (Some "09:00:00") (Some "17:00:00")
          (Some 0) (Some "2025-03-13T08:00:00Z").

Definition room_unlisted : Room.t :=
  Room.mk "r9" "Annex" "spare" "https://pod.example/9" 2 10
          (Some "2025-03-15") (Some "09:00:00") (Some "17:00:00")
          (Some 0) (Some "2025-03-13T10:00:00Z").

(** A store where the second request fails. *)
Definition w_second_denied : World :=
  mkWorld (mkDB {[ "r1" := room_demo ]} [member_old] ∅)
          [None; Some "permission denied"] [].

(** Banner tables: one row, all requests answered; one row, the first
    request refused. The sample store hands out the first row as the latest
    and a fixed id to a new row. *)
Definition banner_row : StatusMessage.t :=
  StatusMessage.mk "m1" "Maintenance at 5pm" "2025-03-14T08:00:00.000Z"
                   "2025-03-14T08:00:00.000Z".
Definition banner_one : BannerWorld := mkBannerWorld [banner_row] [] [].
Definition banner_fetch_denied : BannerWorld :=
  mkBannerWorld [banner_row] [Some "permission denied"] [].
Definition latest_head (rows : list StatusMessage.t) : option StatusMessage.t :=
  head rows.
Definition fresh_m9 (rows : list StatusMessage.t) : string := "m9".

(** A withdrawal row of a table that has a [notes] column, still empty. *)
Definition row_with_notes : JsObject :=
  <[ "notes" := VNull ]> row_legacy.

Definition w_with_notes : World :=
  mkWorld (mkDB ∅ [] {[ "w2" := row_with_notes ]}) [] [].

(** A room without a start time. *)
Definition room_unscheduled : Room.t :=
  Room.mk "r3" "Den" "unscheduled" "https://pod.example/3" 5 30
          (Some "2025-03-14") None (Some "17:00:00")
          (Some 0) (Some "2025-03-13T11:00:00Z").

(** A store where the first request fails with an empty message. *)
Definition w_silent : World :=
  mkWorld (mkDB {[ "r1" := room_demo ]} [member_old] ∅) [Some ""] [].

(** A second withdrawal request, already listed. *)
Definition request_w2 : WithdrawalRequest.t :=
  WithdrawalRequest.mk "w2" "inf2" 900 "approved" None.

(** * Properties *)

(** ** Session-list reconciler *)

Lemma some_id_true_iff (rid : string) (prev : list Room.t) :
  some_id rid prev = true <-> listed rid prev.
Proof.
  unfold some_id, listed. rewrite existsb_exists.
  split; intros (room & Hin & H); exists room; split; try assumption.
  - now apply String.eqb_eq.
  - now apply String.eqb_eq.
Qed.

Lemma some_id_false_iff (rid : string) (prev : list Room.t) :
  some_id rid prev = false <-> ~ listed rid prev.
Proof.
  rewrite <- some_id_true_iff. destruct (some_id rid prev); split; congruence.
Qed.

Lemma strict_eq_ostr_true (o : option string) (s : string) :
  strict_eq_ostr o s = true <-> o = Some s.
Proof.
  destruct o as [d|]; simpl.
  - rewrite String.eqb_eq. split; congruence.
  - split; discriminate.
Qed.

Lemma strict_eq_ostr_false (o : option string) (s : string) :
  strict_eq_ostr o s = false <-> o <> Some s.
Proof.
  rewrite <- strict_eq_ostr_true. destruct (strict_eq_ostr o s); split; congruence.
Qed.

Lemma replace_by_id_decide (updatedRoom room : Room.t) :
  replace_by_id updatedRoom room
  = if decide (Room.id room = Room.id updatedRoom) then updatedRoom else room.
Proof.
  unfold replace_by_id.
  destruct (String.eqb_spec (Room.id room) (Room.id updatedRoom));
    case_decide; congruence.
Qed.

Lemma map_replace_absent (updatedRoom : Room.t) (prev : list Room.t) :
  ~ listed (Room.id updatedRoom) prev ->
  map (replace_by_id updatedRoom) prev = prev.
Proof.
  intros H. apply some_id_false_iff in H.
  induction prev as [|room prev IH]; [reflexivity|].
  simpl in H. apply orb_false_iff in H as [Hhd Htl].
  simpl. unfold replace_by_id at 1. rewrite Hhd. f_equal. now apply IH.
Qed.

(** Both exits of the [UPDATE] branch are the same map over the list. *)
Lemma rooms_on_update_map (todayStr : string) (updatedRoom : Room.t)
    (prev : list Room.t) :
  rooms_on_update todayStr updatedRoom prev
  = map (replace_by_id updatedRoom) prev.
Proof.
  unfold rooms_on_update.
  destruct (some_id (Room.id updatedRoom) prev) eqn:E; simpl.
  - reflexivity.
  - destruct (strict_eq_ostr _ _); simpl.
    + reflexivity.
    + symmetry. now apply map_replace_absent, some_id_false_iff.
Qed.

Lemma roomSubscription_update (todayStr : string) (updatedRoom : Room.t)
    (oldRoom : option Room.t) (prev : list Room.t) :
  roomSubscription todayStr (mkPayload UPDATE (Some updatedRoom) oldRoom) prev
  = Some (rooms_on_update todayStr updatedRoom prev).
Proof. reflexivity. Qed.

Lemma roomSubscription_insert (todayStr : string) (newRoom : Room.t)
    (oldRoom : option Room.t) (prev : list Room.t) :
  roomSubscription todayStr (mkPayload INSERT (Some newRoom) oldRoom) prev
  = Some (rooms_on_insert todayStr newRoom prev).
Proof. reflexivity. Qed.

(** C5. An update event for a room that is neither listed nor dated today
    leaves the list as it is; an update event for a listed room puts the
    updated record at every position holding that id, whatever its date, and
    keeps the length, the order and every other entry. *)
Theorem rooms_on_update_spec (todayStr : string) (updatedRoom : Room.t)
    (prev : list Room.t) :
  (~ listed (Room.id updatedRoom) prev ->
   Room.session_date updatedRoom <> Some todayStr ->
   rooms_on_update todayStr updatedRoom prev = prev)
  /\ (listed (Room.id updatedRoom) prev ->
      length (rooms_on_update todayStr updatedRoom prev) = length prev
      /\ forall (i : nat) (room : Room.t),
           prev !! i = Some room ->
           rooms_on_update todayStr updatedRoom prev !! i
           = Some (if decide (Room.id room = Room.id updatedRoom)
                   then updatedRoom else room)).
Proof.
  rewrite rooms_on_update_map. split.
  - intros Habsent _. now apply map_replace_absent.
  - intros _. split.
    + apply length_map.
    + intros i room Hi.
      change (map (replace_by_id updatedRoom) prev)
        with (replace_by_id updatedRoom <$> prev).
      rewrite list_lookup_fmap, Hi. simpl. f_equal. apply replace_by_id_decide.
Qed.

Lemma rooms_on_update_spec_witness :
  (~ listed (Room.id room_unlisted) [room_demo; room_other]
   /\ Room.session_date room_unlisted <> Some "2025-03-14"
   /\ rooms_on_update "2025-03-14" room_unlisted [room_demo; room_other]
      = [room_demo; room_other])
  /\ (listed (Room.id room_moved) [room_other; room_demo]
      /\ length (rooms_on_update "2025-03-14" room_moved [room_other; room_demo])
         = 2%nat
      /\ rooms_on_update "2025-03-14" room_moved [room_other; room_demo] !! 0%nat
         = Some room_other
      /\ rooms_on_update "2025-03-14" room_moved [room_other; room_demo] !! 1%nat
         = Some room_moved).
Proof.
  assert (Habs : ~ listed (Room.id room_unlisted) [room_demo; room_other]).
  { intros (room & [<-|[<-|[]]] & H); discriminate H. }
  assert (Hdate : Room.session_date room_unlisted <> Some "2025-03-14")
    by discriminate.
  assert (Hin : listed (Room.id room_moved) [room_other; room_demo]).
  { exists room_demo. split; [right; left; reflexivity | reflexivity]. }
  split.
  - split; [exact Habs|]. split; [exact Hdate|].
    destruct (rooms_on_update_spec "2025-03-14" room_unlisted
                [room_demo; room_other]) as [H _].
    exact (H Habs Hdate).
  - split; [exact Hin|].
    destruct (rooms_on_update_spec "2025-03-14" room_moved
                [room_other; room_demo]) as [_ H].
    destruct (H Hin) as [Hlen Hnth].
    split; [exact Hlen|].
    split; [exact (Hnth 0%nat room_other eq_refl)
           | exact (Hnth 1%nat room_demo eq_refl)].
Defined.

(** C10. An update event whose id is not in the list never changes the
    list, whether or not the updated record is dated today. *)
Theorem rooms_on_update_absent (todayStr : string) (updatedRoom : Room.t)
    (prev : list Room.t) :
  ~ listed (Room.id updatedRoom) prev ->
  rooms_on_update todayStr updatedRoom prev = prev.
Proof.
  intros H. rewrite rooms_on_update_map. now apply map_replace_absent.
Qed.

Lemma rooms_on_update_absent_witness :
  ~ listed (Room.id room_unlisted) [room_demo; room_other]
  /\ Room.session_date room_unlisted = Some "2025-03-15"
  /\ rooms_on_update "2025-03-15" room_unlisted [room_demo; room_other]
     = [room_demo; room_other].
Proof.
  assert (Habs : ~ listed (Room.id room_unlisted) [room_demo; room_other]).
  { intros (room & [<-|[<-|[]]] & H); discriminate H. }
  split; [exact Habs|]. split; [reflexivity|].
  exact (rooms_on_update_absent "2025-03-15" room_unlisted
           [room_demo; room_other] Habs).
Defined.

(** C6. Folding an insert event twice gives the same list as folding it
    once; an insert of a listed id or of a record not dated today changes
    nothing, and any other insert puts the record at the front. *)
Theorem rooms_on_insert_idempotent (todayStr : string) (newRoom : Room.t)
    (prev : list Room.t) :
  rooms_on_insert todayStr newRoom (rooms_on_insert todayStr newRoom prev)
  = rooms_on_insert todayStr newRoom prev
  /\ (listed (Room.id newRoom) prev ->
      rooms_on_insert todayStr newRoom prev = prev)
  /\ (Room.session_date newRoom <> Some todayStr ->
      rooms_on_insert todayStr newRoom prev = prev)
  /\ (Room.session_date newRoom = Some todayStr ->
      ~ listed (Room.id newRoom) prev ->
      rooms_on_insert todayStr newRoom prev = newRoom :: prev).
Proof.
  rewrite <- some_id_false_iff, <- some_id_true_iff.
  unfold rooms_on_insert.
  destruct (strict_eq_ostr (Room.session_date newRoom) todayStr) eqn:Hd; simpl.
  - apply strict_eq_ostr_true in Hd.
    destruct (some_id (Room.id newRoom) prev) eqn:Hs; simpl.
    + rewrite Hs. repeat split; congruence.
    + rewrite String.eqb_refl. simpl. repeat split; congruence.
  - apply strict_eq_ostr_false in Hd. repeat split; try reflexivity.
    intros Heq _. contradiction.
Qed.

Lemma rooms_on_insert_idempotent_witness :
  (listed (Room.id room_demo) [room_other; room_demo]
   /\ rooms_on_insert "2025-03-14" room_demo [room_other; room_demo]
      = [room_other; room_demo])
  /\ (Room.session_date room_unlisted <> Some "2025-03-14"
      /\ rooms_on_insert "2025-03-14" room_unlisted [room_other]
         = [room_other])
  /\ (Room.session_date room_demo = Some "2025-03-14"
      /\ ~ listed (Room.id room_demo) [room_other]
      /\ rooms_on_insert "2025-03-14" room_demo [room_other]
         = [room_demo; room_other]).
Proof.
  assert (Hin : listed (Room.id room_demo) [room_other; room_demo]).
  { exists room_demo. split; [right; left; reflexivity | reflexivity]. }
  assert (Hdate : Room.session_date room_unlisted <> Some "2025-03-14")
    by discriminate.
  assert (Habs : ~ listed (Room.id room_demo) [room_other]).
  { intros (room & [<-|[]] & H); discriminate H. }
  split; [|split].
  - split; [exact Hin|].
    destruct (rooms_on_insert_idempotent "2025-03-14" room_demo
                [room_other; room_demo]) as (_ & H & _).
    exact (H Hin).
  - split; [exact Hdate|].
    destruct (rooms_on_insert_idempotent "2025-03-14" room_unlisted
                [room_other]) as (_ & _ & H & _).
    exact (H Hdate).
  - split; [reflexivity|]. split; [exact Habs|].
    destruct (rooms_on_insert_idempotent "2025-03-14" room_demo
                [room_other]) as (_ & _ & _ & H).
    exact (H eq_refl Habs).
Defined.

(** ** Occupancy updater *)

Lemma grows_refl (w : World) : grows w w.
Proof.
  split.
  - exists []. rewrite app_nil_r. split; [reflexivity | constructor].
  - intros id room' H. now left.
Qed.

Lemma grows_trans (w1 w2 w3 : World) : grows w1 w2 -> grows w2 w3 -> grows w1 w3.
Proof.
  intros [(l1 & Hl1 & F1) R1] [(l2 & Hl2 & F2) R2]. split.
  - exists (l1 ++ l2). rewrite Hl2, Hl1, app_assoc. split; [reflexivity|].
    unfold written_counts in *. rewrite omap_app. now apply Forall_app.
  - intros id room' H. destruct (R2 id room' H) as [H2|H2]; [|now right].
    now apply R1.
Qed.

Lemma request_log {A} (r : Request) (answer : DB -> Response A * DB) (w : World) :
  log (snd (request r answer w)) = log w ++ [r].
Proof.
  unfold request. destruct (faults w) as [|[msg|] fs]; simpl;
    try destruct (answer (db w)); reflexivity.
Qed.

Lemma fetch_phase_db (roomId : string) (change : Z) (w : World) :
  db (snd (fetch_phase roomId change w)) = db w
  /\ log (snd (fetch_phase roomId change w)) = log w ++ [SelectRoomSingle roomId].
Proof.
  unfold fetch_phase, bind, rooms_select_single, request, throw, ret.
  destruct (faults w) as [|[msg|] fs]; simpl;
    try destruct (rooms (db w) !! roomId); simpl; split; reflexivity.
Qed.

Lemma fetch_phase_nonneg (roomId : string) (change : Z) (w : World) (n : Z) :
  fst (fetch_phase roomId change w) = inr n -> 0 <= n.
Proof.
  unfold fetch_phase, bind, rooms_select_single, request, throw, ret.
  destruct (faults w) as [|[msg|] fs]; simpl;
    try destruct (rooms (db w) !! roomId); simpl; intros H;
    inversion H; subst; apply Z.le_max_l.
Qed.

Lemma fetch_phase_grows (roomId : string) (change : Z) (w : World) :
  grows w (snd (fetch_phase roomId change w)).
Proof.
  destruct (fetch_phase_db roomId change w) as [Hdb Hlog]. split.
  - exists [SelectRoomSingle roomId]. split; [exact Hlog | constructor].
  - intros id room' H. left. now rewrite Hdb in H.
Qed.

Lemma lookup_alter_counter (n : Z) (roomId id : string)
    (m : gmap string Room.t) (room' : Room.t) :
  0 <= n ->
  alter (set_current_users n) roomId m !! id = Some room' ->
  m !! id = Some room' \/ exists k, Room.current_users room' = Some k /\ 0 <= k.
Proof.
  intros Hn H. rewrite lookup_alter in H. case_decide as E.
  - destruct (m !! roomId) as [room|]; simpl in H; [|discriminate].
    inversion H; subst. right. exists n. split; [reflexivity | exact Hn].
  - now left.
Qed.

Lemma write_phase_grows (roomId : string) (n : Z) (w : World) :
  0 <= n -> grows w (snd (write_phase roomId n w)).
Proof.
  intros Hn. unfold write_phase, bind, rooms_update_current_users, request, throw, ret.
  destruct (faults w) as [|[msg|] fs]; simpl; split; simpl;
    try (exists [UpdateRoomCurrentUsers roomId n]; split; [reflexivity|];
         repeat constructor; exact Hn);
    intros id room' H; try (now left);
    eapply lookup_alter_counter; eassumption.
Qed.

Lemma try_catch_swallow_snd {A} (body : M A) (a : A) (w : World) :
  snd (try_catch body (fun _ => ret a) w) = snd (body w).
Proof.
  unfold try_catch, ret. destruct (body w) as [[e|x] w']; reflexivity.
Qed.

Lemma bind_snd_grows {A B} (m : M A) (k : A -> M B) (w : World) :
  grows w (snd (m w)) ->
  (forall a, fst (m w) = inr a -> grows (snd (m w)) (snd (k a (snd (m w))))) ->
  grows w (snd (bind m k w)).
Proof.
  intros H1 H2. unfold bind. destruct (m w) as [[e|a] w'] eqn:E; simpl in *.
  - exact H1.
  - eapply grows_trans; [exact H1|]. now apply H2.
Qed.

Lemma updateRoomUserCount_grows (roomId : string) (change : Z) (w : World) :
  grows w (snd (updateRoomUserCount roomId change w)).
Proof.
  unfold updateRoomUserCount. rewrite try_catch_swallow_snd.
  apply bind_snd_grows.
  - apply fetch_phase_grows.
  - intros n Hn. apply write_phase_grows. eapply fetch_phase_nonneg; eassumption.
Qed.

Lemma updateRoomUserCount_returns (roomId : string) (change : Z) (w : World) :
  fst (updateRoomUserCount roomId change w) = inr tt.
Proof.
  unfold updateRoomUserCount, try_catch, ret.
  destruct (bind _ _ w) as [[e|[]] w']; reflexivity.
Qed.

Lemma run_updates_grows (calls : list Delta) (w : World) :
  grows w (snd (run_updates calls w)).
Proof.
  revert w. induction calls as [|[roomId change] rest IH]; intros w; simpl.
  - apply grows_refl.
  - apply bind_snd_grows.
    + apply updateRoomUserCount_grows.
    + intros _ _. apply IH.
Qed.

(** The updater swallows every failure: a run of calls always returns. *)
Lemma run_updates_returns (calls : list Delta) (w : World) :
  fst (run_updates calls w) = inr tt.
Proof.
  revert w. induction calls as [|[roomId change] rest IH]; intros w; simpl.
  - reflexivity.
  - unfold bind.
    pose proof (updateRoomUserCount_returns roomId change w) as H.
    destruct (updateRoomUserCount roomId change w) as [[e|[]] w']; simpl in H.
    + discriminate.
    + apply IH.
Qed.

(** One call whose fetch meets no fault and finds the room: the write it
    issues carries [max(0, current + change)]. *)
Lemma updateRoomUserCount_write (roomId : string) (change : Z) (w : World)
    (room : Room.t) :
  rooms (db w) !! roomId = Some room ->
  no_fault 0 w ->
  log (snd (updateRoomUserCount roomId change w))
  = log w ++ [SelectRoomSingle roomId;
              UpdateRoomCurrentUsers roomId (Z.max 0 (occupancy room + change))].
Proof.
  intros Hroom Hf. unfold no_fault in Hf.
  unfold updateRoomUserCount. rewrite try_catch_swallow_snd.
  unfold bind, fetch_phase, bind, rooms_select_single, request, throw, ret.
  destruct (faults w) as [|[msg|] fs]; simpl in *; try discriminate;
    rewrite Hroom; simpl;
    unfold write_phase, bind, rooms_update_current_users, request, throw, ret; simpl.
  - rewrite <- app_assoc. reflexivity.
  - destruct fs as [|[msg|] fs']; simpl; rewrite <- app_assoc; reflexivity.
Qed.

(** ... and when the write meets no fault either, the row then holds it. *)
Lemma updateRoomUserCount_stored (roomId : string) (change : Z) (w : World)
    (room : Room.t) :
  rooms (db w) !! roomId = Some room ->
  no_fault 0 w -> no_fault 1 w ->
  rooms (db (snd (updateRoomUserCount roomId change w))) !! roomId
  = Some (set_current_users (Z.max 0 (occupancy room + change)) room).
Proof.
  intros Hroom Hf0 Hf1. unfold no_fault in *.
  unfold updateRoomUserCount. rewrite try_catch_swallow_snd.
  unfold bind, fetch_phase, bind, rooms_select_single, request, throw, ret.
  destruct (faults w) as [|[msg|] fs]; simpl in *; try discriminate;
    rewrite Hroom; simpl;
    unfold write_phase, bind, rooms_update_current_users, request, throw, ret; simpl.
  - rewrite lookup_alter. case_decide; [|congruence]. now rewrite Hroom.
  - destruct fs as [|[msg|] fs']; simpl in *; try discriminate;
      (rewrite lookup_alter; case_decide; [|congruence]; now rewrite Hroom).
Qed.

(** C2. Whatever calls the updater runs, one after the other, and whatever
    faults they meet: the run returns, every counter it writes is
    non-negative, every room row afterwards is either untouched or holds a
    non-negative counter (so non-negative counters stay non-negative), and
    the write of a call that fetched its room carries
    [max(0, current + change)]. *)
Theorem occupancy_never_negative (calls : list Delta) (w : World) :
  let w' := snd (run_updates calls w) in
  fst (run_updates calls w) = inr tt
  /\ (exists l, log w' = log w ++ l /\ Forall (Z.le 0) (written_counts l))
  /\ (forall id room',
        rooms (db w') !! id = Some room' ->
        rooms (db w) !! id = Some room' \/
        exists n, Room.current_users room' = Some n /\ 0 <= n)
  /\ ((forall id room, rooms (db w) !! id = Some room -> stored_nonneg room) ->
      forall id room', rooms (db w') !! id = Some room' -> stored_nonneg room')
  /\ (forall roomId change room,
        rooms (db w) !! roomId = Some room ->
        no_fault 0 w ->
        written_counts (log (snd (updateRoomUserCount roomId change w)))
        = written_counts (log w) ++ [Z.max 0 (occupancy room + change)]).
Proof.
  cbv zeta. destruct (run_updates_grows calls w) as [Hlog Hrooms].
  split; [apply run_updates_returns|].
  split; [exact Hlog|]. split; [exact Hrooms|]. split.
  - intros Hinit id room' H. destruct (Hrooms id room' H) as [H0|(n & Hn & Hpos)].
    + eapply Hinit; eassumption.
    + intros k Hk. congruence.
  - intros roomId change room Hroom Hf.
    rewrite (updateRoomUserCount_write roomId change w room Hroom Hf).
    unfold written_counts. rewrite omap_app. reflexivity.
Qed.

Lemma occupancy_never_negative_witness :
  (forall id room, rooms (db w_demo) !! id = Some room -> stored_nonneg room)
  /\ rooms (db w_demo) !! "r1" = Some room_demo
  /\ no_fault 0 w_demo
  /\ (forall id room',
        rooms (db (snd (run_updates [("r1", -1); ("r1", 1)] w_demo))) !! id
        = Some room' -> stored_nonneg room')
  /\ written_counts (log (snd (updateRoomUserCount "r1" (-1) w_demo)))
     = written_counts (log w_demo) ++ [Z.max 0 (occupancy room_demo + -1)].
Proof.
  assert (Hinit : forall id room,
             rooms (db w_demo) !! id = Some room -> stored_nonneg room).
  { intros id room H. simpl in H. apply lookup_singleton_Some in H as [_ <-].
    intros n Hn. inversion Hn. lia. }
  assert (Hroom : rooms (db w_demo) !! "r1" = Some room_demo) by reflexivity.
  assert (Hf : no_fault 0 w_demo) by reflexivity.
  destruct (occupancy_never_negative [("r1", -1); ("r1", 1)] w_demo)
    as (_ & _ & _ & Hinv & Hwrite).
  split; [exact Hinit|]. split; [exact Hroom|]. split; [exact Hf|].
  split; [exact (Hinv Hinit) | exact (Hwrite "r1" (-1) room_demo Hroom Hf)].
Defined.

(** The same holds when calls overlap: in any interleaving of their halves
    the parked counts and the written counters are non-negative. *)
Lemma run_schedule_grows (sched : list Step) (parked : Parked) (w : World) :
  Forall (fun p => 0 <= snd p) parked ->
  Forall (fun p => 0 <= snd p) (fst (run_schedule sched (parked, w)))
  /\ grows w (snd (run_schedule sched (parked, w))).
Proof.
  revert parked w. induction sched as [|st sched IH]; intros parked w Hp.
  - split; [exact Hp | apply grows_refl].
  - unfold run_schedule. simpl fold_left. fold (run_schedule sched).
    destruct st as [roomId change | k]; simpl sched_step.
    + pose proof (fetch_phase_grows roomId change w) as Hg.
      pose proof (fetch_phase_nonneg roomId change w) as Hn.
      destruct (fetch_phase roomId change w) as [[e|n] w1]; simpl in *.
      * destruct (IH parked w1 Hp) as [H1 H2].
        split; [exact H1 | eapply grows_trans; eassumption].
      * assert (Hp' : Forall (fun p => 0 <= snd p) (parked ++ [(roomId, n)])).
        { apply Forall_app. split; [exact Hp|]. repeat constructor.
          simpl. now apply Hn. }
        destruct (IH _ w1 Hp') as [H1 H2].
        split; [exact H1 | eapply grows_trans; eassumption].
    + destruct (parked !! k) as [[roomId n]|] eqn:Ek.
      * assert (Hn : 0 <= n).
        { rewrite Forall_forall in Hp.
          apply (Hp (roomId, n)). eapply list_elem_of_lookup_2. exact Ek. }
        assert (Hp' : Forall (fun p => 0 <= snd p)
                             (take k parked ++ drop (S k) parked)).
        { apply Forall_app. split; [now apply Forall_take | now apply Forall_drop]. }
        rewrite try_catch_swallow_snd.
        destruct (IH _ (snd (write_phase roomId n w)) Hp') as [H1 H2].
        split; [exact H1|].
        eapply grows_trans; [apply write_phase_grows; exact Hn | exact H2].
      * apply IH. exact Hp.
Qed.

(** A call that runs undisturbed is the schedule of its two halves. *)
Lemma updateRoomUserCount_as_schedule (roomId : string) (change : Z) (w : World) :
  snd (run_schedule [Begin roomId change; Resume 0] ([], w))
  = snd (updateRoomUserCount roomId change w).
Proof.
  unfold run_schedule, updateRoomUserCount. simpl.
  rewrite try_catch_swallow_snd. unfold bind.
  destruct (fetch_phase roomId change w) as [[e|n] w1]; simpl.
  - reflexivity.
  - rewrite try_catch_swallow_snd. reflexivity.
Qed.

(** C1 (amended). An update event never makes the handler throw, and the
    calls it issues are: none when the new record carries no room id; none
    when the room ids of the old and the new record differ; otherwise one
    [-1] when the credits went from positive to non-positive, one [+1] when
    they went from non-positive to positive, and none in every other case. *)
Theorem sessionSubscription_update (oldSession newSession : Session.t) :
  let h := sessionSubscription
             (mkPayload UPDATE (Some newSession) (Some oldSession)) in
  let roomId := Session.room_id newSession in
  threw h = false
  /\ issued h =
     if decide (roomId = "") then []
     else if decide (Session.room_id oldSession <> roomId) then []
     else if decide (0 < Session.rewards_left oldSession
                     /\ Session.rewards_left newSession <= 0)
     then [(roomId, -1)]
     else if decide (Session.rewards_left oldSession <= 0
                     /\ 0 < Session.rewards_left newSession)
     then [(roomId, 1)]
     else [].
Proof.
  cbv zeta. unfold sessionSubscription, truthy_str. simpl.
  destruct (String.eqb_spec (Session.room_id newSession) "") as [E|E]; simpl.
  - split; [reflexivity|]. rewrite decide_True by exact E. reflexivity.
  - rewrite (decide_False (P := _ = "")) by exact E.
    destruct (String.eqb_spec (Session.room_id oldSession)
                              (Session.room_id newSession)) as [R|R]; simpl.
    + split; [reflexivity|]. rewrite (decide_False (P := _ <> _)) by tauto.
      destruct (Z.ltb_spec 0 (Session.rewards_left oldSession)),
               (Z.leb_spec (Session.rewards_left newSession) 0),
               (Z.leb_spec (Session.rewards_left oldSession) 0),
               (Z.ltb_spec 0 (Session.rewards_left newSession));
        simpl; repeat case_decide; try reflexivity; lia.
    + split; [reflexivity|]. rewrite (decide_True (P := _ <> _)) by exact R.
      reflexivity.
Qed.

(** C1, as stated, fails on a record that belongs to no room: the room ids
    agree and the credits go from 5 to 0, yet no [-1] is issued. *)
Lemma sessionSubscription_update_no_room :
  ~ (Session.room_id stray_old = Session.room_id stray_new ->
     0 < Session.rewards_left stray_old ->
     Session.rewards_left stray_new <= 0 ->
     issued (sessionSubscription (mkPayload UPDATE (Some stray_new) (Some stray_old)))
     = [(Session.room_id stray_new, -1)]).
Proof.
  intros H. specialize (H eq_refl). simpl in H.
  assert (H5 : 0 < 5) by lia. assert (H0 : 0 <= 0) by lia.
  specialize (H H5 H0). discriminate H.
Qed.

(** The two transitions the specification lists, on a record of room [r1]. *)
Example sessionSubscription_5_to_0 :
  sessionSubscription (mkPayload UPDATE (Some member_new) (Some member_old))
  = returns [("r1", -1)].
Proof. reflexivity. Qed.

Example sessionSubscription_0_to_0 :
  sessionSubscription (mkPayload UPDATE (Some member_new) (Some member_new))
  = returns [].
Proof. reflexivity. Qed.

(** ** Deleting a session *)

(** C7. Deleting a session issues the delete of its participation records
    first; the delete of the session row follows right after it exactly when
    the first delete did not fail. When the first delete fails the function
    returns that error, nothing else was issued and the store, the session
    row included, is as before. When neither delete fails, both were issued
    in that order, no error is returned and the row is gone. *)
Theorem deleteRoom_sessions_first (id : string) (w : World) :
  log (snd (Lib.deleteRoom id w))
  = log w ++ DeleteUserSessions id
             :: match mjoin (faults w !! 0%nat) with
                | Some _ => []
                | None => [DeleteRoom id]
                end
  /\ (forall msg fs,
        faults w = Some msg :: fs ->
        fst (Lib.deleteRoom id w) = inr (Some msg)
        /\ log (snd (Lib.deleteRoom id w)) = log w ++ [DeleteUserSessions id]
        /\ db (snd (Lib.deleteRoom id w)) = db w)
  /\ (no_fault 0 w ->
      log (snd (Lib.deleteRoom id w))
      = log w ++ [DeleteUserSessions id; DeleteRoom id])
  /\ (no_fault 0 w -> no_fault 1 w ->
      fst (Lib.deleteRoom id w) = inr None
      /\ rooms (db (snd (Lib.deleteRoom id w))) !! id = None).
Proof.
  unfold no_fault, Lib.deleteRoom, try_catch, bind, user_sessions_delete,
    rooms_delete, request, throw, ret.
  split; [|split; [|split]].
  - destruct (faults w) as [|[msg|] fs]; simpl.
    + rewrite <- app_assoc. reflexivity.
    + reflexivity.
    + destruct fs as [|[msg|] fs']; simpl; rewrite <- app_assoc; reflexivity.
  - intros msg fs Hf. rewrite Hf. simpl. repeat split; reflexivity.
  - intros H0. destruct (faults w) as [|[msg|] fs]; simpl in *; try discriminate.
    + rewrite <- app_assoc. reflexivity.
    + destruct fs as [|[msg|] fs']; simpl; rewrite <- app_assoc; reflexivity.
  - intros H0 H1.
    destruct (faults w) as [|[msg|] fs]; simpl in *; try discriminate.
    + split; [reflexivity | apply lookup_delete_eq].
    + destruct fs as [|[msg|] fs']; simpl in *; try discriminate;
        (split; [reflexivity | apply lookup_delete_eq]).
Qed.

Lemma deleteRoom_sessions_first_witness :
  (faults w_denied = [Some "permission denied"]
   /\ fst (Lib.deleteRoom "r1" w_denied) = inr (Some "permission denied")
   /\ log (snd (Lib.deleteRoom "r1" w_denied))
      = log w_denied ++ [DeleteUserSessions "r1"]
   /\ db (snd (Lib.deleteRoom "r1" w_denied)) = db w_denied)
  /\ (no_fault 0 w_demo /\ no_fault 1 w_demo
      /\ log (snd (Lib.deleteRoom "r1" w_demo))
         = log w_demo ++ [DeleteUserSessions "r1"; DeleteRoom "r1"]
      /\ fst (Lib.deleteRoom "r1" w_demo) = inr None
      /\ rooms (db (snd (Lib.deleteRoom "r1" w_demo))) !! "r1" = None).
Proof.
  split.
  - split; [reflexivity|].
    destruct (deleteRoom_sessions_first "r1" w_denied) as (_ & H & _).
    exact (H "permission denied" [] eq_refl).
  - split; [reflexivity|]. split; [reflexivity|].
    destruct (deleteRoom_sessions_first "r1" w_demo) as (_ & _ & H3 & H4).
    split; [exact (H3 eq_refl) | exact (H4 eq_refl eq_refl)].
Defined.

(** When neither delete fails, the records of the session and then its row
    are gone. *)
Lemma deleteRoom_ok (id : string) (w : World) :
  no_fault 0 w -> no_fault 1 w ->
  fst (Lib.deleteRoom id w) = inr None
  /\ rooms (db (snd (Lib.deleteRoom id w))) !! id = None
  /\ Forall (fun s => Session.room_id s <> id)
            (user_sessions (db (snd (Lib.deleteRoom id w)))).
Proof.
  unfold no_fault, Lib.deleteRoom, try_catch, bind, user_sessions_delete,
    rooms_delete, request, throw, ret.
  intros H0 H1.
  assert (HF : forall l, Forall (fun s => Session.room_id s <> id)
             (List.filter (fun s => negb (String.eqb (Session.room_id s) id)) l)).
  { intros l. apply Forall_forall. intros s Hs.
    apply list_elem_of_In, filter_In in Hs as [_ Hs].
    apply negb_true_iff, String.eqb_neq in Hs. exact Hs. }
  destruct (faults w) as [|[msg|] fs]; simpl in *; try discriminate.
  - repeat split; [apply lookup_delete_eq | apply HF].
  - destruct fs as [|[msg|] fs']; simpl in *; try discriminate;
      (repeat split; [apply lookup_delete_eq | apply HF]).
Qed.

(** ** Rejecting a withdrawal *)

Lemma trimEnd_empty : trimEnd "" = "".
Proof. reflexivity. Qed.

Lemma trim_whitespace_only (s : string) :
  whitespace_only s = true <-> trim s = "".
Proof.
  unfold trim. induction s as [|c rest IH]; simpl.
  - split; reflexivity.
  - destruct (is_js_whitespace c) eqn:Ec; simpl.
    + exact IH.
    + rewrite Ec. simpl. split; discriminate.
Qed.

(** The component's reject call sends one update, whose object always
    carries the note, and never reads the row first. *)
Lemma PayoutManager_rejectWithdrawal_log (id notes : string) (w : World) :
  log (snd (PayoutManager.rejectWithdrawal id notes w))
  = log w ++ [UpdateWithdrawal id
                (<[ "notes" := VStr notes ]> {[ "status" := VStr "rejected" ]})].
Proof.
  unfold PayoutManager.rejectWithdrawal, try_catch, bind, withdrawals_update,
    request, throw, ret.
  destruct (faults w) as [|[msg|] fs]; reflexivity.
Qed.

(** C8. With no withdrawal selected, or with a note that is empty or all
    white space, confirming the rejection returns at once: the component
    state and the world, its request log included, are untouched. *)
Theorem handleConfirmReject_refuses (ui : UiState) (w : World) :
  selectedWithdrawal ui = None \/ whitespace_only (notes ui) = true ->
  PayoutManager.handleConfirmReject ui w = (inr ui, w).
Proof.
  intros H. unfold PayoutManager.handleConfirmReject.
  destruct (selectedWithdrawal ui) as [selected|]; [|reflexivity].
  destruct H as [H|H]; [discriminate|].
  apply trim_whitespace_only in H. rewrite H. reflexivity.
Qed.

Lemma handleConfirmReject_refuses_witness :
  whitespace_only "  " = true
  /\ PayoutManager.handleConfirmReject
       (mkUi true (Some request_w1) "  " None) w_legacy
     = (inr (mkUi true (Some request_w1) "  " None), w_legacy).
Proof.
  split; [reflexivity|].
  apply (handleConfirmReject_refuses (mkUi true (Some request_w1) "  " None) w_legacy).
  right. reflexivity.
Defined.

(** Otherwise exactly one request goes out: the update carrying the note as
    typed. *)
Lemma handleConfirmReject_sends (ui : UiState) (w : World)
    (selected : WithdrawalRequest.t) :
  selectedWithdrawal ui = Some selected ->
  whitespace_only (notes ui) = false ->
  log (snd (PayoutManager.handleConfirmReject ui w))
  = log w ++ [UpdateWithdrawal (WithdrawalRequest.id selected)
                (<[ "notes" := VStr (notes ui) ]> {[ "status" := VStr "rejected" ]})].
Proof.
  intros Hsel Hws. unfold PayoutManager.handleConfirmReject. rewrite Hsel.
  destruct (trim (notes ui)) eqn:Et.
  - apply trim_whitespace_only in Et. congruence.
  - simpl.
    pose proof (PayoutManager_rejectWithdrawal_log
                  (WithdrawalRequest.id selected) (notes ui) w) as Hlog.
    unfold try_catch at 1. unfold bind at 1.
    destruct (PayoutManager.rejectWithdrawal _ _ w) as [[e|r] w1]; simpl in *.
    + exact Hlog.
    + destruct (error r) as [e|]; simpl;
        [destruct (truthy_str e); simpl|]; exact Hlog.
Qed.

(** The function of lib/supabase.js does what the specification says: when
    the fetch finds the row, the update object sets the status to rejected,
    has no field besides status and notes, and carries the note exactly when
    the fetched row has a [notes] field. *)
Lemma Lib_rejectWithdrawal_guarded (id notes : string) (w : World)
    (row : JsObject) :
  influencer_withdrawals (db w) !! id = Some row ->
  no_fault 0 w ->
  exists updateObj,
    log (snd (Lib.rejectWithdrawal id notes w))
    = log w ++ [SelectWithdrawalSingle id; UpdateWithdrawal id updateObj]
    /\ updateObj !! "status" = Some (VStr "rejected")
    /\ Lib.has_key "notes" updateObj = Lib.has_key "notes" row
    /\ (Lib.has_key "notes" row = true -> updateObj !! "notes" = Some (VStr notes))
    /\ (forall k, k <> "status" -> k <> "notes" -> updateObj !! k = None).
Proof.
  intros Hrow Hf. unfold no_fault in Hf.
  unfold Lib.rejectWithdrawal, try_catch, bind, withdrawals_select_single,
    withdrawals_update, request, throw, ret.
  set (obj := if Lib.has_key "notes" row
              then <[ "notes" := VStr notes ]> ({[ "status" := VStr "rejected" ]} : JsObject)
              else {[ "status" := VStr "rejected" ]}).
  assert (Hobj : obj !! "status" = Some (VStr "rejected")
                 /\ Lib.has_key "notes" obj = Lib.has_key "notes" row
                 /\ (Lib.has_key "notes" row = true -> obj !! "notes" = Some (VStr notes))
                 /\ (forall k, k <> "status" -> k <> "notes" -> obj !! k = None)).
  { unfold obj, Lib.has_key. destruct (row !! "notes") as [v|].
    - rewrite lookup_insert_eq. rewrite lookup_insert_ne by discriminate.
      rewrite lookup_singleton_eq. repeat split.
      intros k H1 H2. rewrite lookup_insert_ne by congruence.
      now rewrite lookup_singleton_ne by congruence.
    - rewrite lookup_singleton_eq. rewrite lookup_singleton_ne by discriminate.
      repeat split; try discriminate.
      intros k H1 H2. now rewrite lookup_singleton_ne by congruence. }
  exists obj. split; [|exact Hobj].
  destruct (faults w) as [|[msg|] fs]; simpl in *; try discriminate;
    rewrite Hrow; simpl; fold obj.
  - rewrite <- app_assoc. reflexivity.
  - destruct fs as [|[msg|] fs']; simpl; rewrite <- app_assoc; reflexivity.
Qed.

(** C4 (fails on the component's own copy). On a row without a [notes]
    field the reject that the payout screen performs still writes the note,
    and does so without having read the row. *)
Theorem PayoutManager_rejectWithdrawal_unguarded :
  influencer_withdrawals (db w_legacy) !! "w1" = Some row_legacy
  /\ Lib.has_key "notes" row_legacy = false
  /\ log (snd (PayoutManager.rejectWithdrawal "w1" "duplicate request" w_legacy))
     = [UpdateWithdrawal "w1"
          (<[ "notes" := VStr "duplicate request" ]> {[ "status" := VStr "rejected" ]})]
  /\ Lib.has_key "notes"
       (<[ "notes" := VStr "duplicate request" ]> {[ "status" := VStr "rejected" ]})
     = true.
Proof.
  split; [reflexivity|]. split; [reflexivity|]. split.
  - rewrite PayoutManager_rejectWithdrawal_log. reflexivity.
  - unfold Lib.has_key. now rewrite lookup_insert_eq.
Qed.

(** ** Session-window status classifier *)

Lemma append_cons_truthy (a b : string) (c : ascii) :
  truthy_str (a +:+ String c b) = true.
Proof. destruct a; reflexivity. Qed.

Lemma format_ymd_truthy (year month0 day : Z) :
  truthy_str (format_ymd year month0 day) = true.
Proof. unfold format_ymd. apply append_cons_truthy. Qed.

(** The session date equals today's, in the way the classifier tests it. *)
Lemma isCorrectDate_iff (o : option string) (year month0 day : Z) :
  strict_eq_ostr (if truthy_ostr o then o else None)
                 (format_ymd year month0 day) = true
  <-> o = Some (format_ymd year month0 day).
Proof.
  split.
  - destruct (truthy_ostr o); intros H.
    + now apply strict_eq_ostr_true.
    + discriminate.
  - intros ->. simpl. rewrite format_ymd_truthy. simpl. apply String.eqb_refl.
Qed.

Section ClassifierFacts.

Variable Number : string -> jsnum.
Variable Date_parse : string -> DateObj.

Lemma isActive_iff (now : LocalNow) (room : Room.t) :
  isActive Number Date_parse now room = true
  <-> within_window Number Date_parse now room.
Proof.
  unfold isActive, within_window.
  destruct (parseTimeString Number Date_parse (Room.session_start_time room))
    as [[|sh sm]|];
  destruct (parseTimeString Number Date_parse (Room.session_end_time room))
    as [[|eh em]|]; simpl;
  try (split; [intros H; try discriminate;
                 apply andb_true_iff in H as [_ H]; try discriminate;
                 apply andb_true_iff in H as [H1 H2]; discriminate
              | intros (a & b & c & d & H1 & H2 & _); discriminate]).
  split.
  - intros H. apply andb_true_iff in H as [Hd H].
    apply andb_true_iff in H as [H1 H2].
    apply isCorrectDate_iff in Hd. apply Z.leb_le in H1, H2.
    exists sh, sm, eh, em. repeat split; assumption.
  - intros (a & b & c & d & H1 & H2 & Hd & Hlo & Hhi).
    inversion H1; inversion H2; subst.
    apply andb_true_iff. split; [now apply isCorrectDate_iff|].
    apply andb_true_iff. split; now apply Z.leb_le.
Qed.

(** C3 (amended). The badge is [Inactive] exactly when the date-and-time
    gate fails, whatever the occupancy; [Full] exactly when the gate passes
    and the occupancy has reached the maximum; [Active] exactly when the
    gate passes and the occupancy is below the maximum. *)
Theorem getStatusBadge_spec (now : LocalNow) (room : Room.t) :
  let badge := getStatusBadge Number Date_parse now room in
  let occupancy := num_of_nullable (Room.current_users room) in
  (badge = Inactive <-> ~ within_window Number Date_parse now room)
  /\ (badge = Full <->
      within_window Number Date_parse now room /\ Room.max_users room <= occupancy)
  /\ (badge = Active <->
      within_window Number Date_parse now room /\ occupancy < Room.max_users room).
Proof.
  cbv zeta. unfold getStatusBadge, isFull.
  pose proof (isActive_iff now room) as Hgate.
  destruct (isActive Number Date_parse now room); simpl.
  - assert (Hw : within_window Number Date_parse now room) by now apply Hgate.
    destruct (Z.leb_spec (Room.max_users room)
                         (num_of_nullable (Room.current_users room))) as [Hc|Hc].
    + repeat split; try discriminate; try tauto; try lia;
        intros [_ H]; lia.
    + repeat split; try discriminate; try tauto; try lia;
        intros [_ H]; lia.
  - assert (Hw : ~ within_window Number Date_parse now room).
    { intros H. apply Hgate in H. discriminate. }
    repeat split; try discriminate; tauto.
Qed.

End ClassifierFacts.

Lemma within_window_demo_noon (n : Z) :
  within_window Number_digits no_iso now_noon (with_occupancy n).
Proof.
  exists 9, 0, 17, 0. repeat split; try reflexivity; vm_compute; discriminate.
Qed.

(** C3, as stated, fails on a full session inside its window: the gate
    passes, yet the badge is [Full], not [Active]. *)
Lemma getStatusBadge_full_in_window :
  ~ (getStatusBadge Number_digits no_iso now_noon (with_occupancy 10) = Active
     <-> within_window Number_digits no_iso now_noon (with_occupancy 10)).
Proof.
  intros [_ H]. specialize (H (within_window_demo_noon 10)).
  vm_compute in H. discriminate H.
Qed.

(** The cases the specification lists: session dated today, window
    09:00-17:00, maximum 10. *)
Example getStatusBadge_noon_3 :
  getStatusBadge Number_digits no_iso now_noon (with_occupancy 3) = Active.
Proof. vm_compute. reflexivity. Qed.

Example getStatusBadge_evening_3 :
  getStatusBadge Number_digits no_iso now_evening (with_occupancy 3) = Inactive.
Proof. vm_compute. reflexivity. Qed.

Example getStatusBadge_noon_10 :
  getStatusBadge Number_digits no_iso now_noon (with_occupancy 10) = Full.
Proof. vm_compute. reflexivity. Qed.

Example getStatusBadge_evening_10 :
  getStatusBadge Number_digits no_iso now_evening (with_occupancy 10) = Inactive.
Proof. vm_compute. reflexivity. Qed.

(** ** Promo codes *)



(** * Further properties of the code *)

(** ** Session-list reconciler: delete, and the three events together *)

Lemma in_rooms_on_delete (deletedRoom : Room.t) (prev : list Room.t)
    (room : Room.t) :
  In room (rooms_on_delete deletedRoom prev)
  <-> In room prev /\ Room.id room <> Room.id deletedRoom.
Proof.
  unfold rooms_on_delete. rewrite filter_In, negb_true_iff, String.eqb_neq.
  reflexivity.
Qed.

Lemma rooms_on_delete_absent (deletedRoom : Room.t) (prev : list Room.t) :
  ~ listed (Room.id deletedRoom) prev -> rooms_on_delete deletedRoom prev = prev.
Proof.
  unfold rooms_on_delete.
  induction prev as [|room prev IH]; intros H; [reflexivity|]. simpl.
  destruct (String.eqb_spec (Room.id room) (Room.id deletedRoom)) as [E|E]; simpl.
  - exfalso. apply H. exists room. split; [now left | exact E].
  - f_equal. apply IH. intros (r & Hin & Hr). apply H.
    exists r. split; [now right | exact Hr].
Qed.

Lemma rooms_on_delete_sublist (deletedRoom : Room.t) (prev : list Room.t) :
  sublist (rooms_on_delete deletedRoom prev) prev.
Proof.
  unfold rooms_on_delete. induction prev as [|room prev IH]; simpl.
  - constructor.
  - destruct (negb _); [now apply sublist_skip | now apply sublist_cons].
Qed.

(** X1. A delete event removes every room carrying the deleted id and
    nothing else: the rooms left are those of the old list with another id,
    in their old order, and no room with that id is listed afterwards. *)
Theorem rooms_on_delete_spec (deletedRoom : Room.t) (prev : list Room.t) :
  ~ listed (Room.id deletedRoom) (rooms_on_delete deletedRoom prev)
  /\ (forall room,
        In room (rooms_on_delete deletedRoom prev)
        <-> In room prev /\ Room.id room <> Room.id deletedRoom)
  /\ sublist (rooms_on_delete deletedRoom prev) prev.
Proof.
  split; [|split].
  - intros (room & Hin & Hid). apply in_rooms_on_delete in Hin as [_ Hne].
    contradiction.
  - apply in_rooms_on_delete.
  - apply rooms_on_delete_sublist.
Qed.

Lemma ids_rooms_on_update (todayStr : string) (updatedRoom : Room.t)
    (prev : list Room.t) :
  map Room.id (rooms_on_update todayStr updatedRoom prev) = map Room.id prev.
Proof.
  rewrite rooms_on_update_map. rewrite map_map. apply map_ext.
  intros room. unfold replace_by_id.
  destruct (String.eqb_spec (Room.id room) (Room.id updatedRoom)); congruence.
Qed.

Lemma NoDup_ids_delete (deletedRoom : Room.t) (prev : list Room.t) :
  NoDup (map Room.id prev) -> NoDup (map Room.id (rooms_on_delete deletedRoom prev)).
Proof.
  intros H.
  assert (Hs : sublist (Room.id <$> rooms_on_delete deletedRoom prev)
                       (Room.id <$> prev))
    by apply fmap_sublist, rooms_on_delete_sublist.
  eapply sublist_NoDup; eassumption.
Qed.

Lemma NoDup_ids_insert (todayStr : string) (newRoom : Room.t)
    (prev : list Room.t) :
  NoDup (map Room.id prev) ->
  NoDup (map Room.id (rooms_on_insert todayStr newRoom prev)).
Proof.
  intros H. unfold rooms_on_insert.
  destruct (negb _); [exact H|].
  destruct (some_id (Room.id newRoom) prev) eqn:E; [exact H|].
  simpl. apply NoDup_cons. split; [|exact H].
  intros Hin. apply list_elem_of_In, in_map_iff in Hin as (room & Hid & Hroom).
  apply some_id_false_iff in E. apply E. exists room. split; assumption.
Qed.

(** X2. Whatever event arrives, a list in which no two rooms share an id
    stays such a list. *)
Theorem roomSubscription_ids_unique (todayStr : string)
    (payload : Payload Room.t) (prev next : list Room.t) :
  NoDup (map Room.id prev) ->
  roomSubscription todayStr payload prev = Some next ->
  NoDup (map Room.id next).
Proof.
  intros H. unfold roomSubscription.
  destruct (eventType payload).
  - destruct (new payload) as [newRoom|]; [|discriminate].
    intros E. inversion E. now apply NoDup_ids_insert.
  - destruct (new payload) as [updatedRoom|]; [|discriminate].
    intros E. inversion E. now rewrite ids_rooms_on_update.
  - destruct (old payload) as [deletedRoom|]; [|discriminate].
    intros E. inversion E. now apply NoDup_ids_delete.
Qed.

Lemma roomSubscription_ids_unique_witness :
  NoDup (map Room.id [room_other; room_demo])
  /\ roomSubscription "2025-03-14" (mkPayload UPDATE (Some room_moved) None)
       [room_other; room_demo] = Some [room_other; room_moved]
  /\ NoDup (map Room.id [room_other; room_moved]).
Proof.
  assert (H : NoDup (map Room.id [room_other; room_demo])).
  { simpl. apply NoDup_cons. split.
    - intros Hin. apply list_elem_of_In in Hin as [Hin|[]]. discriminate Hin.
    - apply NoDup_singleton. }
  split; [exact H|]. split; [reflexivity|].
  exact (roomSubscription_ids_unique "2025-03-14"
           (mkPayload UPDATE (Some room_moved) None)
           [room_other; room_demo] [room_other; room_moved] H eq_refl).
Defined.

(** X3. Inserting a room that was not listed and then deleting it gives the
    list back, whether or not the insert let it in. *)
Theorem rooms_insert_then_delete (todayStr : string) (newRoom : Room.t)
    (prev : list Room.t) :
  ~ listed (Room.id newRoom) prev ->
  rooms_on_delete newRoom (rooms_on_insert todayStr newRoom prev) = prev.
Proof.
  intros H. unfold rooms_on_insert.
  destruct (negb _); [now apply rooms_on_delete_absent|].
  destruct (some_id (Room.id newRoom) prev); [now apply rooms_on_delete_absent|].
  unfold rooms_on_delete. simpl. rewrite String.eqb_refl. simpl.
  now apply rooms_on_delete_absent.
Qed.

Lemma rooms_insert_then_delete_witness :
  ~ listed (Room.id room_demo) [room_other]
  /\ rooms_on_delete room_demo (rooms_on_insert "2025-03-14" room_demo [room_other])
     = [room_other].
Proof.
  assert (Habs : ~ listed (Room.id room_demo) [room_other]).
  { intros (room & [<-|[]] & H); discriminate H. }
  split; [exact Habs|].
  exact (rooms_insert_then_delete "2025-03-14" room_demo [room_other] Habs).
Defined.

(** X4. Insert and delete events keep the list within today's sessions: if
    every listed room is dated today, so is every room after the event. *)
Theorem rooms_insert_delete_keep_today (todayStr : string) (room : Room.t)
    (prev : list Room.t) :
  all_dated todayStr prev ->
  all_dated todayStr (rooms_on_insert todayStr room prev)
  /\ all_dated todayStr (rooms_on_delete room prev).
Proof.
  unfold all_dated. intros H. split.
  - unfold rooms_on_insert.
    destruct (strict_eq_ostr (Room.session_date room) todayStr) eqn:E; simpl;
      [|exact H].
    destruct (some_id _ _); [exact H|].
    apply Forall_cons. split; [now apply strict_eq_ostr_true | exact H].
  - pose proof (rooms_on_delete_sublist room prev) as Hs.
    rewrite Forall_forall in *. intros x Hx. apply H.
    eapply elem_of_sublist; eassumption.
Qed.

Lemma rooms_insert_delete_keep_today_witness :
  all_dated "2025-03-14" [room_other]
  /\ all_dated "2025-03-14" (rooms_on_insert "2025-03-14" room_unlisted [room_other])
  /\ all_dated "2025-03-14" (rooms_on_delete room_unlisted [room_other]).
Proof.
  assert (H : all_dated "2025-03-14" [room_other]).
  { apply Forall_cons. split; [reflexivity | apply Forall_nil_2]. }
  split; [exact H|].
  exact (rooms_insert_delete_keep_today "2025-03-14" room_unlisted [room_other] H).
Defined.

(** ** Occupancy updater: the other events, and runs of the updater *)

(** X5. Whatever event arrives, the handler issues at most one call; the
    change of an issued call is [+1] or [-1] and its room is the non-empty
    room id of the new snapshot (of the old one when there is no new one);
    a run that throws has issued nothing. *)
Theorem sessionSubscription_at_most_one (payload : Payload Session.t) :
  let h := sessionSubscription payload in
  (length (issued h) <= 1)%nat
  /\ (forall roomId change,
        In (roomId, change) (issued h) ->
        (change = 1 \/ change = -1)
        /\ roomId <> ""
        /\ exists s,
             (new payload = Some s \/ (new payload = None /\ old payload = Some s))
             /\ Session.room_id s = roomId)
  /\ (threw h = true -> issued h = []).
Proof.
  cbv zeta. unfold sessionSubscription, returns, throws.
  destruct payload as [ev [n|] [o|]]; simpl;
    try (repeat split; simpl; try lia; try reflexivity; intros; contradiction).
  - (* both snapshots *)
    unfold truthy_str.
    destruct (String.eqb_spec (Session.room_id n) "") as [E|E]; simpl;
      [repeat split; simpl; try lia; try reflexivity; intros; contradiction|].
    assert (Hs : exists s, (Some n = Some s \/ (Some n = None /\ Some o = Some s))
                           /\ Session.room_id s = Session.room_id n)
      by (exists n; split; [now left | reflexivity]).
    destruct ev; simpl.
    + destruct (0 <? Session.rewards_left n); simpl;
        repeat split; try lia; try discriminate;
        intros; try contradiction;
        match goal with H : _ \/ False |- _ => destruct H as [H|[]]; inversion H; subst end;
        auto.
    + destruct (negb (Session.room_id o =? Session.room_id n)%string); simpl;
        [repeat split; simpl; try lia; try reflexivity; intros; contradiction|].
      destruct (Z.ltb_spec 0 (Session.rewards_left o)),
               (Z.leb_spec (Session.rewards_left n) 0),
               (Z.leb_spec (Session.rewards_left o) 0),
               (Z.ltb_spec 0 (Session.rewards_left n)); simpl;
        try lia;
        repeat split; simpl; try lia; try discriminate; try reflexivity;
        intros; try contradiction;
        match goal with H : _ \/ False |- _ => destruct H as [H|[]]; inversion H; subst end;
        auto.
    + destruct (0 <? Session.rewards_left o); simpl;
        repeat split; try lia; try discriminate;
        intros; try contradiction;
        match goal with H : _ \/ False |- _ => destruct H as [H|[]]; inversion H; subst end;
        auto.
  - (* new snapshot only *)
    unfold truthy_str.
    destruct (String.eqb_spec (Session.room_id n) "") as [E|E]; simpl;
      [repeat split; simpl; try lia; try reflexivity; intros; contradiction|].
    assert (Hs : exists s, (Some n = Some s \/ (Some n = None /\ @None Session.t = Some s))
                           /\ Session.room_id s = Session.room_id n)
      by (exists n; split; [now left | reflexivity]).
    destruct ev; simpl;
      try (repeat split; simpl; try lia; try reflexivity; intros; contradiction).
    destruct (0 <? Session.rewards_left n); simpl;
      repeat split; try lia; try discriminate;
      intros; try contradiction;
      match goal with H : _ \/ False |- _ => destruct H as [H|[]]; inversion H; subst end;
      auto.
  - (* old snapshot only *)
    unfold truthy_str.
    destruct (String.eqb_spec (Session.room_id o) "") as [E|E]; simpl;
      [repeat split; simpl; try lia; try reflexivity; intros; contradiction|].
    assert (Hs : exists s, (@None Session.t = Some s \/ (@None Session.t = None /\ Some o = Some s))
                           /\ Session.room_id s = Session.room_id o)
      by (exists o; split; [right; split; reflexivity | reflexivity]).
    destruct ev; simpl;
      try (repeat split; simpl; try lia; try reflexivity; intros; contradiction).
    destruct (0 <? Session.rewards_left o); simpl;
      repeat split; try lia; try discriminate;
      intros; try contradiction;
      match goal with H : _ \/ False |- _ => destruct H as [H|[]]; inversion H; subst end;
      auto.
Qed.

Lemma sessionSubscription_at_most_one_witness :
  In ("r1", -1)
     (issued (sessionSubscription
                (mkPayload UPDATE (Some member_new) (Some member_old))))
  /\ ((-1 = 1 \/ -1 = -1) /\ "r1" <> "").
Proof.
  assert (Hin : In ("r1", -1)
                   (issued (sessionSubscription
                              (mkPayload UPDATE (Some member_new) (Some member_old)))))
    by (left; reflexivity).
  split; [exact Hin|].
  destruct (sessionSubscription_at_most_one
              (mkPayload UPDATE (Some member_new) (Some member_old)))
    as (_ & H & _).
  destruct (H "r1" (-1) Hin) as (H1 & H2 & _).
  split; [exact H1 | exact H2].
Defined.

(** X6. A record that joins (insert event) adds one to its room exactly
    when it carries a room id and positive credits. On a delete event the
    room id is read off the new snapshot whenever one is delivered: with a
    new snapshot that carries no room id (such as the empty object the
    realtime client puts there on a delete) nothing is issued, whatever
    record was deleted; with one that carries a room id, one is taken off
    that room when the deleted record had positive credits. Only when no new
    snapshot is delivered does the deleted record's own room lose one, under
    the condition of the insert. *)
Theorem sessionSubscription_insert_delete (s n : Session.t)
    (other : option Session.t) :
  sessionSubscription (mkPayload INSERT (Some s) other)
  = returns (if decide (Session.room_id s <> "" /\ 0 < Session.rewards_left s)
             then [(Session.room_id s, 1)] else [])
  /\ sessionSubscription (mkPayload DELETE (Some n) other)
     = (if decide (Session.room_id n = "") then returns []
        else match other with
             | Some deleted =>
                 returns (if decide (0 < Session.rewards_left deleted)
                          then [(Session.room_id n, -1)] else [])
             | None => throws
             end)
  /\ sessionSubscription (mkPayload DELETE None (Some s))
     = returns (if decide (Session.room_id s <> "" /\ 0 < Session.rewards_left s)
                then [(Session.room_id s, -1)] else []).
Proof.
  unfold sessionSubscription, truthy_str. simpl.
  split; [|split].
  - destruct (String.eqb_spec (Session.room_id s) "") as [E|E]; simpl.
    + case_decide; [tauto | reflexivity].
    + destruct (Z.ltb_spec 0 (Session.rewards_left s)); case_decide;
        try tauto; try lia; reflexivity.
  - destruct (String.eqb_spec (Session.room_id n) "") as [E|E]; simpl;
      case_decide; try contradiction; [reflexivity|].
    destruct other as [deleted|]; [|reflexivity].
    destruct (Z.ltb_spec 0 (Session.rewards_left deleted)); case_decide;
      try lia; reflexivity.
  - destruct (String.eqb_spec (Session.room_id s) "") as [E|E]; simpl.
    + case_decide; [tauto | reflexivity].
    + destruct (Z.ltb_spec 0 (Session.rewards_left s)); case_decide;
        try tauto; try lia; reflexivity.
Qed.

(** A delete event as delivered with a new snapshot without room id: the
    record of room [r1] with 5 credits left is deleted and nothing is
    issued. *)
Example sessionSubscription_delete_empty_new :
  sessionSubscription (mkPayload DELETE (Some stray_new) (Some member_old))
  = returns [].
Proof. reflexivity. Qed.

(** Requests that meet no fault, and requests that do. *)
Lemma request_no_fault {A} (r : Request) (answer : DB -> Response A * DB)
    (w : World) :
  no_fault 0 w ->
  request r answer w
  = (inr (fst (answer (db w))), after_request r (snd (answer (db w))) w).
Proof.
  unfold no_fault, request, after_request. intros H.
  destruct (faults w) as [|[msg|] fs]; simpl in *; try discriminate;
    destruct (answer (db w)); reflexivity.
Qed.

Lemma request_fault {A} (r : Request) (answer : DB -> Response A * DB)
    (w : World) (msg : string) :
  mjoin (faults w !! 0%nat) = Some msg ->
  request r answer w
  = (inr (mkResponse None (Some msg)), after_request r (db w) w).
Proof.
  unfold request, after_request. intros H.
  destruct (faults w) as [|[m|] fs]; simpl in *; try discriminate.
  inversion H. reflexivity.
Qed.

Lemma no_fault_after_request (k : nat) (r : Request) (d : DB) (w : World) :
  no_fault k (after_request r d w) <-> no_fault (S k) w.
Proof.
  unfold no_fault, after_request. simpl. rewrite lookup_drop. reflexivity.
Qed.

(** X7. A call for a room that is not in the store, or whose fetch fails,
    issues the fetch and nothing else: no counter is written and the store
    is as before; the call still returns normally. *)
Theorem updateRoomUserCount_no_write (roomId : string) (change : Z) (w : World) :
  rooms (db w) !! roomId = None \/ (exists msg, mjoin (faults w !! 0%nat) = Some msg) ->
  updateRoomUserCount roomId change w
  = (inr tt, after_request (SelectRoomSingle roomId) (db w) w).
Proof.
  intros H. unfold updateRoomUserCount, try_catch, bind, fetch_phase, bind,
    rooms_select_single.
  destruct (mjoin (faults w !! 0%nat)) as [msg|] eqn:Ef.
  - rewrite (request_fault _ _ w msg Ef). reflexivity.
  - destruct H as [H|[msg H]]; [|discriminate].
    rewrite request_no_fault by exact Ef. rewrite H. reflexivity.
Qed.

Lemma updateRoomUserCount_no_write_witness :
  rooms (db w_demo) !! "r7" = None
  /\ updateRoomUserCount "r7" 1 w_demo
     = (inr tt, after_request (SelectRoomSingle "r7") (db w_demo) w_demo).
Proof.
  split; [reflexivity|].
  apply (updateRoomUserCount_no_write "r7" 1 w_demo). left. reflexivity.
Defined.

(** A call whose two requests go through. *)
Lemma updateRoomUserCount_run (roomId : string) (change : Z) (w : World)
    (room : Room.t) :
  rooms (db w) !! roomId = Some room ->
  no_fault 0 w -> no_fault 1 w ->
  updateRoomUserCount roomId change w
  = (inr tt,
     after_request
       (UpdateRoomCurrentUsers roomId (Z.max 0 (occupancy room + change)))
       (with_counter roomId (Z.max 0 (occupancy room + change)) (db w))
       (after_request (SelectRoomSingle roomId) (db w) w)).
Proof.
  intros Hroom H0 H1.
  unfold updateRoomUserCount, try_catch, bind, fetch_phase, bind,
    rooms_select_single.
  rewrite request_no_fault by exact H0. rewrite Hroom. simpl.
  unfold write_phase, bind, rooms_update_current_users.
  rewrite request_no_fault by (now apply no_fault_after_request).
  reflexivity.
Qed.

Lemma with_counter_lookup (roomId : string) (n : Z) (d : DB) (room : Room.t) :
  rooms d !! roomId = Some room ->
  rooms (with_counter roomId n d) !! roomId = Some (set_current_users n room).
Proof.
  intros H. unfold with_counter. simpl. rewrite lookup_alter.
  case_decide; [now rewrite H | congruence].
Qed.

Lemma occupancy_set (n : Z) (room : Room.t) :
  occupancy (set_current_users n room) = n.
Proof.
  unfold occupancy, set_current_users, or_zero. simpl.
  destruct (Z.eqb_spec n 0); congruence.
Qed.

Lemma set_current_users_twice (n m : Z) (room : Room.t) :
  set_current_users m (set_current_users n room) = set_current_users m room.
Proof. reflexivity. Qed.

(** Two calls in a row for the same room, all four requests going through. *)
Lemma run_two_updates (roomId : string) (c1 c2 : Z) (w : World) (room : Room.t) :
  rooms (db w) !! roomId = Some room ->
  no_fault 0 w -> no_fault 1 w -> no_fault 2 w -> no_fault 3 w ->
  rooms (db (snd (run_updates [(roomId, c1); (roomId, c2)] w))) !! roomId
  = Some (set_current_users (Z.max 0 (Z.max 0 (occupancy room + c1) + c2)) room).
Proof.
  intros Hroom H0 H1 H2 H3. simpl. unfold bind.
  rewrite (updateRoomUserCount_run roomId c1 w room Hroom H0 H1).
  set (n1 := Z.max 0 (occupancy room + c1)).
  set (w1 := after_request _ _ _).
  assert (Hroom1 : rooms (db w1) !! roomId = Some (set_current_users n1 room))
    by (apply with_counter_lookup; exact Hroom).
  assert (H01 : no_fault 0 w1) by (now apply no_fault_after_request, no_fault_after_request).
  assert (H11 : no_fault 1 w1) by (now apply no_fault_after_request, no_fault_after_request).
  rewrite (updateRoomUserCount_run roomId c2 w1 _ Hroom1 H01 H11).
  unfold ret. cbn [snd db after_request].
  rewrite (with_counter_lookup _ _ _ _ Hroom1).
  rewrite occupancy_set. reflexivity.
Qed.

(** X8. With every request going through, a join followed by a leave
    brings a non-negative counter back to its value; a leave followed by a
    join does so only from 1 upwards: on an empty room the clamped leave is
    not undone and the counter ends at 1. *)
Theorem updates_round_trip (roomId : string) (w : World) (room : Room.t) :
  rooms (db w) !! roomId = Some room ->
  0 <= occupancy room ->
  no_fault 0 w -> no_fault 1 w -> no_fault 2 w -> no_fault 3 w ->
  rooms (db (snd (run_updates [(roomId, 1); (roomId, -1)] w))) !! roomId
  = Some (set_current_users (occupancy room) room)
  /\ rooms (db (snd (run_updates [(roomId, -1); (roomId, 1)] w))) !! roomId
     = Some (set_current_users (Z.max 1 (occupancy room)) room).
Proof.
  intros Hroom Hc H0 H1 H2 H3. split.
  - rewrite (run_two_updates roomId 1 (-1) w room) by assumption.
    do 2 f_equal. lia.
  - rewrite (run_two_updates roomId (-1) 1 w room) by assumption.
    do 2 f_equal. lia.
Qed.

Lemma updates_round_trip_witness :
  rooms (db w_demo) !! "r1" = Some room_demo
  /\ 0 <= occupancy room_demo
  /\ rooms (db (snd (run_updates [("r1", 1); ("r1", -1)] w_demo))) !! "r1"
     = Some (set_current_users (occupancy room_demo) room_demo)
  /\ rooms (db (snd (run_updates [("r1", -1); ("r1", 1)] w_demo))) !! "r1"
     = Some (set_current_users (Z.max 1 (occupancy room_demo)) room_demo).
Proof.
  assert (Hroom : rooms (db w_demo) !! "r1" = Some room_demo) by reflexivity.
  assert (Hc : 0 <= occupancy room_demo) by (vm_compute; discriminate).
  split; [exact Hroom|]. split; [exact Hc|].
  exact (updates_round_trip "r1" w_demo room_demo Hroom Hc
           eq_refl eq_refl eq_refl eq_refl).
Defined.

Lemma sched_begin_ok (roomId : string) (change : Z)
    (parked : list (string * Z)) (w : World) (room : Room.t) :
  rooms (db w) !! roomId = Some room ->
  no_fault 0 w ->
  sched_step (Begin roomId change) (parked, w)
  = (parked ++ [(roomId, Z.max 0 (occupancy room + change))],
     after_request (SelectRoomSingle roomId) (db w) w).
Proof.
  intros Hroom H0. unfold sched_step, fetch_phase, bind, rooms_select_single.
  cbv beta iota.
  rewrite request_no_fault by exact H0. rewrite Hroom. reflexivity.
Qed.

Lemma sched_resume_ok (k : nat) (roomId : string) (n : Z)
    (parked : list (string * Z)) (w : World) :
  parked !! k = Some (roomId, n) ->
  no_fault 0 w ->
  sched_step (Resume k) (parked, w)
  = (take k parked ++ drop (S k) parked,
     after_request (UpdateRoomCurrentUsers roomId n)
                   (with_counter roomId n (db w)) w).
Proof.
  intros Hk H0. unfold sched_step, Parked. cbv beta iota. rewrite Hk.
  unfold try_catch, write_phase, bind, rooms_update_current_users.
  rewrite request_no_fault by exact H0. reflexivity.
Qed.

(** X9. The updater loses updates when calls overlap: two joins that both
    fetch before either writes leave the counter one higher, whereas the
    same two joins one after the other leave it two higher. *)
Theorem overlapping_joins_lose_one (roomId : string) (w : World) (room : Room.t) :
  rooms (db w) !! roomId = Some room ->
  0 <= occupancy room ->
  no_fault 0 w -> no_fault 1 w -> no_fault 2 w -> no_fault 3 w ->
  rooms (db (snd (run_schedule
                    [Begin roomId 1; Begin roomId 1; Resume 0; Resume 0]
                    ([], w)))) !! roomId
  = Some (set_current_users (occupancy room + 1) room)
  /\ rooms (db (snd (run_updates [(roomId, 1); (roomId, 1)] w))) !! roomId
     = Some (set_current_users (occupancy room + 2) room).
Proof.
  intros Hroom Hc H0 H1 H2 H3. split.
  - unfold run_schedule. cbn [fold_left]. cbv beta.
    rewrite (sched_begin_ok roomId 1 [] w room Hroom H0).
    set (w1 := after_request _ _ w).
    assert (H01 : no_fault 0 w1) by (now apply no_fault_after_request).
    rewrite (sched_begin_ok roomId 1 _ w1 room Hroom H01).
    set (w2 := after_request _ _ w1).
    assert (H02 : no_fault 0 w2)
      by (now apply no_fault_after_request, no_fault_after_request).
    erewrite (sched_resume_ok 0 roomId (Z.max 0 (occupancy room + 1)) _ w2);
      [|reflexivity|exact H02].
    set (w3 := after_request _ _ w2).
    assert (H03 : no_fault 0 w3)
      by (now apply no_fault_after_request, no_fault_after_request,
                    no_fault_after_request).
    erewrite (sched_resume_ok 0 roomId (Z.max 0 (occupancy room + 1)) _ w3);
      [|reflexivity|exact H03].
    cbn [snd db after_request].
    assert (Hroom3 : rooms (db w3) !! roomId
                     = Some (set_current_users (Z.max 0 (occupancy room + 1)) room))
      by (apply with_counter_lookup; exact Hroom).
    rewrite (with_counter_lookup _ _ _ _ Hroom3).
    rewrite set_current_users_twice. do 2 f_equal. lia.
  - rewrite (run_two_updates roomId 1 1 w room) by assumption.
    do 2 f_equal. lia.
Qed.

Lemma overlapping_joins_lose_one_witness :
  rooms (db w_demo) !! "r1" = Some room_demo
  /\ 0 <= occupancy room_demo
  /\ rooms (db (snd (run_schedule
                       [Begin "r1" 1; Begin "r1" 1; Resume 0; Resume 0]
                       ([], w_demo)))) !! "r1"
     = Some (set_current_users (occupancy room_demo + 1) room_demo)
  /\ rooms (db (snd (run_updates [("r1", 1); ("r1", 1)] w_demo))) !! "r1"
     = Some (set_current_users (occupancy room_demo + 2) room_demo).
Proof.
  assert (Hroom : rooms (db w_demo) !! "r1" = Some room_demo) by reflexivity.
  assert (Hc : 0 <= occupancy room_demo) by (vm_compute; discriminate).
  split; [exact Hroom|]. split; [exact Hc|].
  exact (overlapping_joins_lose_one "r1" w_demo room_demo Hroom Hc
           eq_refl eq_refl eq_refl eq_refl).
Defined.

(** ** Deleting a session: the second step, and the operator's button *)

(** X10. When the records of the session are deleted but the delete of its
    row then fails, [deleteRoom] returns that error with the records already
    gone and the row still in the store. *)
Theorem deleteRoom_second_step_fails (id : string) (w : World) (msg : string) :
  no_fault 0 w ->
  mjoin (faults w !! 1%nat) = Some msg ->
  fst (Lib.deleteRoom id w) = inr (Some msg)
  /\ log (snd (Lib.deleteRoom id w))
     = log w ++ [DeleteUserSessions id; DeleteRoom id]
  /\ rooms (db (snd (Lib.deleteRoom id w))) = rooms (db w)
  /\ Forall (fun s => Session.room_id s <> id)
            (user_sessions (db (snd (Lib.deleteRoom id w)))).
Proof.
  intros H0 H1.
  unfold Lib.deleteRoom, try_catch, bind, user_sessions_delete, rooms_delete.
  rewrite request_no_fault by exact H0. simpl.
  erewrite request_fault by (rewrite <- H1; unfold after_request; simpl;
                             now rewrite lookup_drop).
  simpl. rewrite <- app_assoc. repeat split.
  apply Forall_forall. intros s Hs.
  apply list_elem_of_In, filter_In in Hs as [_ Hs].
  apply negb_true_iff, String.eqb_neq in Hs. exact Hs.
Qed.

Lemma deleteRoom_second_step_fails_witness :
  no_fault 0 w_second_denied
  /\ mjoin (faults w_second_denied !! 1%nat) = Some "permission denied"
  /\ fst (Lib.deleteRoom "r1" w_second_denied) = inr (Some "permission denied")
  /\ rooms (db (snd (Lib.deleteRoom "r1" w_second_denied)))
     = rooms (db w_second_denied)
  /\ Forall (fun s => Session.room_id s <> "r1")
            (user_sessions (db (snd (Lib.deleteRoom "r1" w_second_denied)))).
Proof.
  split; [reflexivity|]. split; [reflexivity|].
  destruct (deleteRoom_second_step_fails "r1" w_second_denied
              "permission denied" eq_refl eq_refl) as (Hr & _ & Hrooms & Hs).
  split; [exact Hr|]. split; [exact Hrooms | exact Hs].
Defined.

Lemma deleteRoom_result (id : string) (w : World) :
  fst (Lib.deleteRoom id w)
  = inr (match mjoin (faults w !! 0%nat) with
         | Some msg => Some msg
         | None => mjoin (faults w !! 1%nat)
         end).
Proof.
  unfold Lib.deleteRoom, try_catch, bind, user_sessions_delete, rooms_delete,
    request, throw, ret.
  destruct (faults w) as [|[msg|] fs]; simpl; try reflexivity.
  destruct fs as [|[msg|] fs']; reflexivity.
Qed.

(** X11. The delete button goes by the message [deleteRoom] returns: when
    both deletes went through the room is taken off the screen with the
    success notification; when a delete failed with a non-empty message the
    list on screen is left as it was and the error notification is shown;
    when a delete failed with an empty message the failure is taken for a
    success and the room is taken off the screen all the same. *)
Theorem handleDeleteRoom_list (roomId : string) (prev : list Room.t) (w : World) :
  let removed :=
    List.filter (fun room => negb (String.eqb (Room.id room) roomId)) prev in
  (no_fault 0 w -> no_fault 1 w ->
   fst (handleDeleteRoom roomId prev w) = inr (removed, success))
  /\ (forall msg,
        msg <> "" ->
        mjoin (faults w !! 0%nat) = Some msg
        \/ (no_fault 0 w /\ mjoin (faults w !! 1%nat) = Some msg) ->
        fst (handleDeleteRoom roomId prev w) = inr (prev, error_notification))
  /\ (mjoin (faults w !! 0%nat) = Some ""
      \/ (no_fault 0 w /\ mjoin (faults w !! 1%nat) = Some "") ->
      fst (handleDeleteRoom roomId prev w) = inr (removed, success)).
Proof.
  cbv zeta. pose proof (deleteRoom_result roomId w) as Hres.
  unfold handleDeleteRoom, try_catch, bind, throw, ret.
  destruct (Lib.deleteRoom roomId w) as [[e|r] w'] eqn:E; simpl in Hres;
    [discriminate|]. inversion Hres as [Hr]. clear Hres.
  unfold no_fault. split; [|split].
  - intros H0 H1. rewrite H0, H1. reflexivity.
  - intros msg Hne [H|[H0 H]].
    + rewrite H. simpl. unfold truthy_str.
      destruct (String.eqb_spec msg ""); [contradiction | reflexivity].
    + rewrite H0, H. simpl. unfold truthy_str.
      destruct (String.eqb_spec msg ""); [contradiction | reflexivity].
  - intros [H|[H0 H]].
    + rewrite H. reflexivity.
    + rewrite H0, H. reflexivity.
Qed.

Lemma handleDeleteRoom_list_witness :
  (no_fault 0 w_demo /\ no_fault 1 w_demo
   /\ fst (handleDeleteRoom "r1" [room_other; room_demo] w_demo)
      = inr ([room_other], success))
  /\ ("permission denied" <> ""
      /\ mjoin (faults w_denied !! 0%nat) = Some "permission denied"
      /\ fst (handleDeleteRoom "r1" [room_other; room_demo] w_denied)
         = inr ([room_other; room_demo], error_notification))
  /\ (mjoin (faults w_silent !! 0%nat) = Some ""
      /\ fst (handleDeleteRoom "r1" [room_other; room_demo] w_silent)
         = inr ([room_other], success)).
Proof.
  split; [|split].
  - split; [reflexivity|]. split; [reflexivity|].
    destruct (handleDeleteRoom_list "r1" [room_other; room_demo] w_demo) as [H _].
    exact (H eq_refl eq_refl).
  - assert (Hne : "permission denied" <> "") by discriminate.
    split; [exact Hne|]. split; [reflexivity|].
    destruct (handleDeleteRoom_list "r1" [room_other; room_demo] w_denied)
      as (_ & H & _).
    exact (H "permission denied" Hne (or_introl eq_refl)).
  - split; [reflexivity|].
    destruct (handleDeleteRoom_list "r1" [room_other; room_demo] w_silent)
      as (_ & _ & H).
    exact (H (or_introl eq_refl)).
Defined.

(** ** Rejecting a withdrawal: failures, and the dialog afterwards *)

(** X12. When the fetch of the record fails, or finds no record, the
    function of lib/supabase.js returns the error without sending any
    update, and the store is as before. *)
Theorem Lib_rejectWithdrawal_fetch_fails (id notes : string) (w : World) :
  (forall msg,
     mjoin (faults w !! 0%nat) = Some msg ->
     Lib.rejectWithdrawal id notes w
     = (inr (mkResponse None (Some msg)),
        after_request (SelectWithdrawalSingle id) (db w) w))
  /\ (no_fault 0 w ->
      influencer_withdrawals (db w) !! id = None ->
      Lib.rejectWithdrawal id notes w
      = (inr (mkResponse None (Some PGRST116)),
         after_request (SelectWithdrawalSingle id) (db w) w)).
Proof.
  unfold Lib.rejectWithdrawal, try_catch, bind, withdrawals_select_single.
  split.
  - intros msg H. rewrite (request_fault _ _ w msg H). reflexivity.
  - intros H0 Hrow. rewrite request_no_fault by exact H0. rewrite Hrow.
    reflexivity.
Qed.

Lemma Lib_rejectWithdrawal_fetch_fails_witness :
  (mjoin (faults w_denied !! 0%nat) = Some "permission denied"
   /\ Lib.rejectWithdrawal "w1" "duplicate request" w_denied
      = (inr (mkResponse None (Some "permission denied")),
         after_request (SelectWithdrawalSingle "w1") (db w_denied) w_denied))
  /\ (no_fault 0 w_legacy
      /\ influencer_withdrawals (db w_legacy) !! "w9" = None
      /\ Lib.rejectWithdrawal "w9" "duplicate request" w_legacy
         = (inr (mkResponse None (Some PGRST116)),
            after_request (SelectWithdrawalSingle "w9") (db w_legacy) w_legacy)).
Proof.
  split.
  - split; [reflexivity|].
    destruct (Lib_rejectWithdrawal_fetch_fails "w1" "duplicate request" w_denied)
      as [H _].
    exact (H "permission denied" eq_refl).
  - split; [reflexivity|]. split; [reflexivity|].
    destruct (Lib_rejectWithdrawal_fetch_fails "w9" "duplicate request" w_legacy)
      as [_ H].
    exact (H eq_refl eq_refl).
Defined.

(** X13. After a confirmed rejection with a real note, the handler goes by
    the message the reject call returns: if the update went through, the
    dialog is closed, the selection cleared and the note emptied; if it
    failed with a non-empty message, the dialog, the selection and the note
    are kept as they were, so the operator can retry, and an error is shown;
    if it failed with an empty message the failure is taken for a success
    and the dialog is closed all the same. *)
Theorem handleConfirmReject_outcome (ui : UiState) (w : World)
    (selected : WithdrawalRequest.t) :
  selectedWithdrawal ui = Some selected ->
  whitespace_only (notes ui) = false ->
  fst (PayoutManager.handleConfirmReject ui w)
  = inr (match mjoin (faults w !! 0%nat) with
         | None => mkUi false None "" (Some success)
         | Some msg =>
             if decide (msg = "") then mkUi false None "" (Some success)
             else mkUi (showRejectModal ui) (selectedWithdrawal ui) (notes ui)
                       (Some error_notification)
         end).
Proof.
  intros Hsel Hws. unfold PayoutManager.handleConfirmReject. rewrite Hsel.
  destruct (trim (notes ui)) eqn:Et.
  - apply trim_whitespace_only in Et. congruence.
  - simpl. rewrite <- Hsel.
    unfold PayoutManager.rejectWithdrawal, try_catch, bind, withdrawals_update,
      request, throw, ret.
    destruct (faults w) as [|[msg|] fs]; simpl; try reflexivity.
    unfold truthy_str.
    destruct (String.eqb_spec msg ""); case_decide; try contradiction;
      reflexivity.
Qed.

Lemma handleConfirmReject_outcome_witness :
  selectedWithdrawal (mkUi true (Some request_w1) "duplicate request" None)
  = Some request_w1
  /\ whitespace_only "duplicate request" = false
  /\ fst (PayoutManager.handleConfirmReject
            (mkUi true (Some request_w1) "duplicate request" None) w_denied)
     = inr (mkUi true (Some request_w1) "duplicate request"
                 (Some error_notification)).
Proof.
  split; [reflexivity|]. split; [reflexivity|].
  exact (handleConfirmReject_outcome
           (mkUi true (Some request_w1) "duplicate request" None) w_denied
           request_w1 eq_refl eq_refl).
Defined.

(** ** Time fields of the room forms *)

Lemma in_range_spec (lo hi : N) (c : ascii) :
  in_range lo hi c = true <-> (lo <= N_of_ascii c <= hi)%N.
Proof.
  unfold in_range. rewrite andb_true_iff, !N.leb_le. reflexivity.
Qed.

Lemma eqb_false_of_code (c d : ascii) :
  N_of_ascii c <> N_of_ascii d -> Ascii.eqb c d = false.
Proof.
  intros H. apply Ascii.eqb_neq. congruence.
Qed.

Lemma digit_value_of_code (c : ascii) :
  (48 <= N_of_ascii c <= 57)%N ->
  digit_value c = Some (Z.of_N (N_of_ascii c) - 48).
Proof.
  intros H. unfold digit_value.
  replace (48 <=? Z.of_N (N_of_ascii c)) with true by (symmetry; apply Z.leb_le; lia).
  replace (Z.of_N (N_of_ascii c) <=? 57) with true by (symmetry; apply Z.leb_le; lia).
  reflexivity.
Qed.

Lemma not_colon (c : ascii) :
  (48 <= N_of_ascii c <= 57)%N -> Ascii.eqb c ":" = false.
Proof. intros H. apply eqb_false_of_code. simpl. lia. Qed.

Lemma not_T (c : ascii) :
  (48 <= N_of_ascii c <= 58)%N -> Ascii.eqb c "T" = false.
Proof. intros H. apply eqb_false_of_code. simpl. lia. Qed.

Lemma Number_digits_1 (a : ascii) :
  (48 <= N_of_ascii a <= 57)%N ->
  Number_digits (String a "") = Some (Z.of_N (N_of_ascii a) - 48).
Proof.
  intros Ha. unfold Number_digits. simpl.
  rewrite (digit_value_of_code a Ha). reflexivity.
Qed.

Lemma Number_digits_2 (a b : ascii) :
  (48 <= N_of_ascii a <= 57)%N -> (48 <= N_of_ascii b <= 57)%N ->
  Number_digits (String a (String b ""))
  = Some ((Z.of_N (N_of_ascii a) - 48) * 10 + (Z.of_N (N_of_ascii b) - 48)).
Proof.
  intros Ha Hb. unfold Number_digits. simpl.
  rewrite (digit_value_of_code a Ha), (digit_value_of_code b Hb). reflexivity.
Qed.

(** What a text accepted by [isValidTimeFormat] is made of. *)
Lemma isValidTimeFormat_parts (s : string) :
  isValidTimeFormat s = true ->
  exists hs ms h m,
    split ":"%char s = [hs; ms]
    /\ hs <> "" /\ digits_only hs = true
    /\ ms <> "" /\ digits_only ms = true
    /\ Number_digits hs = Some h /\ Number_digits ms = Some m
    /\ 0 <= h < 24 /\ 0 <= m < 60.
Proof.
  intros H.
  destruct s as [|c1 [|c2 [|c3 [|c4 [|c5 [|c6 s]]]]]]; try discriminate.
  - (* H:MM *)
    simpl in H.
    apply andb_true_iff in H as [H H4]. apply andb_true_iff in H as [H H3].
    apply andb_true_iff in H as [H1 H2].
    apply Ascii.eqb_eq in H2. subst c2.
    apply in_range_spec in H1, H3, H4.
    assert (H3' : (48 <= N_of_ascii c3 <= 57)%N) by lia.
    exists (String c1 ""), (String c3 (String c4 "")).
    eexists. eexists.
    split.
    { simpl. rewrite (not_colon c1 H1), (not_colon c3 H3'), (not_colon c4 H4).
      reflexivity. }
    split; [discriminate|]. split.
    { unfold digits_only. simpl. rewrite (proj2 (in_range_spec 48 57 c1) H1).
      reflexivity. }
    split; [discriminate|]. split.
    { unfold digits_only. simpl.
      rewrite (proj2 (in_range_spec 48 57 c3) H3'),
              (proj2 (in_range_spec 48 57 c4) H4). reflexivity. }
    split; [apply Number_digits_1; exact H1|].
    split; [apply Number_digits_2; assumption|].
    lia.
  - (* HH:MM *)
    simpl in H.
    apply andb_true_iff in H as [H H5]. apply andb_true_iff in H as [H H4].
    apply andb_true_iff in H as [H12 H3].
    apply Ascii.eqb_eq in H3. subst c3.
    apply in_range_spec in H4, H5.
    assert (H4' : (48 <= N_of_ascii c4 <= 57)%N) by lia.
    assert (Hh : (48 <= N_of_ascii c1 <= 57)%N /\ (48 <= N_of_ascii c2 <= 57)%N
                 /\ (Z.of_N (N_of_ascii c1) - 48) * 10
                    + (Z.of_N (N_of_ascii c2) - 48) < 24).
    { apply orb_true_iff in H12 as [H12|H12];
        apply andb_true_iff in H12 as [Ha Hb].
      - apply in_range_spec in Ha, Hb. lia.
      - apply Ascii.eqb_eq in Ha. subst c1. apply in_range_spec in Hb.
        simpl. lia. }
    destruct Hh as (H1 & H2 & Hlt).
    exists (String c1 (String c2 "")), (String c4 (String c5 "")).
    eexists. eexists.
    split.
    { simpl. rewrite (not_colon c1 H1), (not_colon c2 H2),
               (not_colon c4 H4'), (not_colon c5 H5).
      reflexivity. }
    split; [discriminate|]. split.
    { unfold digits_only. simpl.
      rewrite (proj2 (in_range_spec 48 57 c1) H1),
              (proj2 (in_range_spec 48 57 c2) H2). reflexivity. }
    split; [discriminate|]. split.
    { unfold digits_only. simpl.
      rewrite (proj2 (in_range_spec 48 57 c4) H4'),
              (proj2 (in_range_spec 48 57 c5) H5). reflexivity. }
    split; [apply Number_digits_2; assumption|].
    split; [apply Number_digits_2; assumption|].
    lia.
Qed.

Lemma pad2_ok_all : forallb pad2_ok (seqZ 0 100) = true.
Proof. vm_compute. reflexivity. Qed.

Lemma padStart2_digits (n : Z) :
  0 <= n < 100 ->
  exists a b,
    padStart2 n = String a (String b "")
    /\ digit_value a = Some (n / 10) /\ digit_value b = Some (n mod 10).
Proof.
  intros Hn.
  assert (Hok : pad2_ok n = true).
  { pose proof pad2_ok_all as Hall. rewrite forallb_forall in Hall.
    apply Hall. apply list_elem_of_In, elem_of_seqZ. lia. }
  unfold pad2_ok in Hok.
  destruct (padStart2 n) as [|a [|b [|c r]]]; try discriminate.
  apply andb_true_iff in Hok as [Ha Hb].
  apply bool_decide_eq_true in Ha, Hb. exists a, b. auto.
Qed.

Lemma digit_value_code (c : ascii) (d : Z) :
  digit_value c = Some d -> (48 <= N_of_ascii c <= 57)%N /\ d = Z.of_N (N_of_ascii c) - 48.
Proof.
  unfold digit_value.
  destruct (Z.leb_spec 48 (Z.of_N (N_of_ascii c))),
           (Z.leb_spec (Z.of_N (N_of_ascii c)) 57); simpl; intros E;
    inversion E. lia.
Qed.

Lemma time_minutes_of_parts (s hs ms : string) (h m : Z) :
  split ":"%char s = [hs; ms] ->
  Number_digits hs = Some h -> Number_digits ms = Some m ->
  time_minutes s = Some (h * 60 + m).
Proof.
  intros Hs Hh Hm. unfold time_minutes. rewrite Hs. simpl.
  rewrite Hh, Hm. reflexivity.
Qed.

Section TimeRoundTrip.

Variable Number : string -> jsnum.
Variable Date_parse : string -> DateObj.

(** [Number] reads a run of decimal digits as its value. *)
Hypothesis Number_reads_digits :
  forall t, t <> "" -> digits_only t = true -> Number t = Number_digits t.

Lemma parse_formatted (h m : Z) :
  0 <= h < 24 -> 0 <= m < 60 ->
  parseTimeString Number Date_parse
    (Some (padStart2 h +:+ ":" +:+ padStart2 m +:+ ":00"))
  = Some (setHours (Some h) (Some m) 0).
Proof.
  intros Hh Hm.
  destruct (padStart2_digits h) as (a & b & Eh & Ha & Hb); [lia|].
  destruct (padStart2_digits m) as (c & d & Em & Hc & Hd); [lia|].
  rewrite Eh, Em.
  change (String a (String b "") +:+ ":" +:+ String c (String d "") +:+ ":00")
    with (String a (String b (String ":" (String c (String d ":00"))))).
  apply digit_value_code in Ha as [Ra Ea], Hb as [Rb Eb],
                            Hc as [Rc Ec], Hd as [Rd Ed].
  unfold parseTimeString. simpl truthy_str. cbv iota. simpl negb. cbv iota.
  assert (Hinc : includes "T"
                   (String a (String b (String ":" (String c (String d ":00")))))
                 = false).
  { simpl. rewrite (not_T a), (not_T b), (not_T c), (not_T d) by lia.
    reflexivity. }
  rewrite Hinc.
  assert (Hsplit : split ":"
                     (String a (String b (String ":" (String c (String d ":00")))))
                   = [String a (String b ""); String c (String d ""); "00"]).
  { simpl. rewrite (not_colon a Ra), (not_colon b Rb), (not_colon c Rc),
             (not_colon d Rd). reflexivity. }
  rewrite Hsplit. simpl map.
  rewrite (Number_reads_digits (String a (String b ""))),
          (Number_reads_digits (String c (String d ""))),
          (Number_reads_digits "00");
    try discriminate; try reflexivity;
    try (unfold digits_only; simpl;
         repeat match goal with
                | |- context [in_range 48 57 ?x] =>
                    rewrite (proj2 (in_range_spec 48 57 x)) by assumption
                end; reflexivity).
  rewrite (Number_digits_2 a b Ra Rb), (Number_digits_2 c d Rc Rd).
  cbn [lookup list_lookup mjoin option_join or_zero Number_digits digits_value
       digit_value].
  replace ((Z.of_N (N_of_ascii a) - 48) * 10 + (Z.of_N (N_of_ascii b) - 48))
    with h by (rewrite <- Ea, <- Eb; pose proof (Z.div_mod h 10); lia).
  replace ((Z.of_N (N_of_ascii c) - 48) * 10 + (Z.of_N (N_of_ascii d) - 48))
    with m by (rewrite <- Ec, <- Ed; pose proof (Z.div_mod m 10); lia).
  reflexivity.
Qed.


End TimeRoundTrip.

Lemma Number_digits_reads_digits (t : string) :
  t <> "" -> digits_only t = true -> Number_digits t = Number_digits t.
Proof. reflexivity. Qed.


Example formatTimeForSupabase_9_05 :
  formatTimeForSupabase Number_digits "9:05" = Some "09:05:00".
Proof. vm_compute. reflexivity. Qed.

(** A text [HH:MM] the forms accept, by its code units. *)
Lemma isValidTimeFormat_5 (c1 c2 c3 c4 c5 : ascii) :
  isValidTimeFormat (String c1 (String c2 (String c3 (String c4 (String c5 "")))))
  = true ->
  c3 = ":"%char
  /\ (48 <= N_of_ascii c1 <= 50)%N /\ (48 <= N_of_ascii c2 <= 57)%N
  /\ (48 <= N_of_ascii c4 <= 53)%N /\ (48 <= N_of_ascii c5 <= 57)%N
  /\ (Z.of_N (N_of_ascii c1) - 48) * 10 + (Z.of_N (N_of_ascii c2) - 48) < 24
  /\ time_minutes (String c1 (String c2 (String c3 (String c4 (String c5 "")))))
     = Some (((Z.of_N (N_of_ascii c1) - 48) * 10 + (Z.of_N (N_of_ascii c2) - 48)) * 60
             + ((Z.of_N (N_of_ascii c4) - 48) * 10 + (Z.of_N (N_of_ascii c5) - 48))).
Proof.
  intros H. simpl in H.
  apply andb_true_iff in H as [H H5]. apply andb_true_iff in H as [H H4].
  apply andb_true_iff in H as [H12 H3].
  apply Ascii.eqb_eq in H3. subst c3.
  apply in_range_spec in H4, H5.
  assert (Hh : (48 <= N_of_ascii c1 <= 50)%N /\ (48 <= N_of_ascii c2 <= 57)%N
               /\ (Z.of_N (N_of_ascii c1) - 48) * 10
                  + (Z.of_N (N_of_ascii c2) - 48) < 24).
  { apply orb_true_iff in H12 as [H12|H12];
      apply andb_true_iff in H12 as [Ha Hb].
    - apply in_range_spec in Ha, Hb. lia.
    - apply Ascii.eqb_eq in Ha. subst c1. apply in_range_spec in Hb.
      simpl. lia. }
  destruct Hh as (H1 & H2 & Hlt).
  repeat (split; [first [reflexivity | assumption | lia]|]).
  unfold time_minutes. simpl split.
  rewrite (not_colon c1), (not_colon c2), (not_colon c4), (not_colon c5) by lia.
  simpl map.
  rewrite (Number_digits_2 c1 c2), (Number_digits_2 c4 c5) by lia.
  reflexivity.
Qed.

(** A text [H:MM] the forms accept, by its code units. *)
Lemma isValidTimeFormat_4 (c1 c2 c3 c4 : ascii) :
  isValidTimeFormat (String c1 (String c2 (String c3 (String c4 "")))) = true ->
  c2 = ":"%char
  /\ (48 <= N_of_ascii c1 <= 57)%N
  /\ (48 <= N_of_ascii c3 <= 53)%N /\ (48 <= N_of_ascii c4 <= 57)%N
  /\ time_minutes (String c1 (String c2 (String c3 (String c4 ""))))
     = Some ((Z.of_N (N_of_ascii c1) - 48) * 60
             + ((Z.of_N (N_of_ascii c3) - 48) * 10 + (Z.of_N (N_of_ascii c4) - 48))).
Proof.
  intros H. simpl in H.
  apply andb_true_iff in H as [H H4]. apply andb_true_iff in H as [H H3].
  apply andb_true_iff in H as [H1 H2].
  apply Ascii.eqb_eq in H2. subst c2.
  apply in_range_spec in H1, H3, H4.
  repeat (split; [first [reflexivity | assumption | lia]|]).
  unfold time_minutes. simpl split.
  rewrite (not_colon c1), (not_colon c3), (not_colon c4) by lia.
  simpl map.
  rewrite (Number_digits_1 c1), (Number_digits_2 c3 c4) by lia.
  reflexivity.
Qed.

(** X15. On two accepted times written with two hour digits, the form's
    text comparison is the comparison of the times: the error "End time must
    be after start time" is raised exactly when the end is not later than
    the start, and no "required" error is raised. *)
Theorem validate_times_order (start_time end_time : string) :
  isValidTimeFormat start_time = true ->
  isValidTimeFormat end_time = true ->
  String.length start_time = 5%nat ->
  String.length end_time = 5%nat ->
  exists a b,
    time_minutes start_time = Some a
    /\ time_minutes end_time = Some b
    /\ fst (validate_times start_time end_time) = None
    /\ (snd (validate_times start_time end_time)
        = Some "End time must be after start time" <-> b <= a)
    /\ (snd (validate_times start_time end_time) = None <-> a < b).
Proof.
  intros Hs He Ls Le.
  destruct start_time as [|a1 [|a2 [|a3 [|a4 [|a5 [|a6 s]]]]]]; try discriminate.
  destruct end_time as [|b1 [|b2 [|b3 [|b4 [|b5 [|b6 s]]]]]]; try discriminate.
  destruct (isValidTimeFormat_5 _ _ _ _ _ Hs) as (-> & A1 & A2 & A4 & A5 & Ah & Ta).
  destruct (isValidTimeFormat_5 _ _ _ _ _ He) as (-> & B1 & B2 & B4 & B5 & Bh & Tb).
  eexists. eexists. split; [exact Ta|]. split; [exact Tb|].
  split; [reflexivity|].
  unfold validate_times, js_str_ge. simpl truthy_str. simpl andb. cbn [snd].
  unfold js_str_lt.
  replace (N_of_ascii ":" <? N_of_ascii ":")%N with false by reflexivity.
  destruct (N.ltb_spec (N_of_ascii a1) (N_of_ascii b1)),
           (N.ltb_spec (N_of_ascii b1) (N_of_ascii a1)),
           (N.ltb_spec (N_of_ascii a2) (N_of_ascii b2)),
           (N.ltb_spec (N_of_ascii b2) (N_of_ascii a2)),
           (N.ltb_spec (N_of_ascii a4) (N_of_ascii b4)),
           (N.ltb_spec (N_of_ascii b4) (N_of_ascii a4)),
           (N.ltb_spec (N_of_ascii a5) (N_of_ascii b5)),
           (N.ltb_spec (N_of_ascii b5) (N_of_ascii a5));
    simpl; try lia; (split; split; intros; try discriminate; try reflexivity; lia).
Qed.

Lemma validate_times_order_witness :
  isValidTimeFormat "09:00" = true
  /\ isValidTimeFormat "17:00" = true
  /\ exists a b,
       time_minutes "09:00" = Some a
       /\ time_minutes "17:00" = Some b
       /\ fst (validate_times "09:00" "17:00") = None
       /\ (snd (validate_times "09:00" "17:00")
           = Some "End time must be after start time" <-> b <= a)
       /\ (snd (validate_times "09:00" "17:00") = None <-> a < b).
Proof.
  split; [reflexivity|]. split; [reflexivity|].
  exact (validate_times_order "09:00" "17:00" eq_refl eq_refl eq_refl eq_refl).
Defined.

(** X16. On an accepted start time written with one hour digit the text
    comparison goes wrong: a start from 2:00 to 9:59 against an end from
    10:00 to 19:59 is reported as "End time must be after start time"
    although the end is later. *)
Theorem validate_times_one_digit_hour (start_time end_time : string) (a b : Z) :
  isValidTimeFormat start_time = true ->
  isValidTimeFormat end_time = true ->
  String.length start_time = 4%nat ->
  time_minutes start_time = Some a ->
  time_minutes end_time = Some b ->
  120 <= a -> 600 <= b < 1200 ->
  a < b
  /\ snd (validate_times start_time end_time)
     = Some "End time must be after start time".
Proof.
  intros Hs He Ls Ta Tb Ha Hb.
  destruct start_time as [|a1 [|a2 [|a3 [|a4 [|a5 s]]]]]; try discriminate.
  destruct (isValidTimeFormat_4 _ _ _ _ Hs) as (-> & A1 & A3 & A4 & Ta').
  rewrite Ta' in Ta. inversion Ta as [Ea]. clear Ta.
  destruct end_time as [|b1 [|b2 [|b3 [|b4 [|b5 [|b6 s]]]]]]; try discriminate.
  - (* the end has one hour digit: it is before 10:00 *)
    destruct (isValidTimeFormat_4 _ _ _ _ He) as (-> & B1 & B3 & B4 & Tb').
    rewrite Tb' in Tb. inversion Tb. lia.
  - destruct (isValidTimeFormat_5 _ _ _ _ _ He) as (-> & B1 & B2 & B4 & B5 & Bh & Tb').
    rewrite Tb' in Tb. inversion Tb as [Eb]. clear Tb.
    split; [lia|].
    unfold validate_times, js_str_ge. simpl truthy_str. simpl andb. cbn [snd].
    unfold js_str_lt.
    destruct (N.ltb_spec (N_of_ascii a1) (N_of_ascii b1)); [lia|].
    destruct (N.ltb_spec (N_of_ascii b1) (N_of_ascii a1)); [reflexivity|lia].
Qed.

Lemma validate_times_one_digit_hour_witness :
  isValidTimeFormat "9:30" = true
  /\ isValidTimeFormat "10:00" = true
  /\ time_minutes "9:30" = Some 570
  /\ time_minutes "10:00" = Some 600
  /\ 570 < 600
  /\ snd (validate_times "9:30" "10:00")
     = Some "End time must be after start time".
Proof.
  split; [reflexivity|]. split; [reflexivity|].
  split; [reflexivity|]. split; [reflexivity|].
  apply (validate_times_one_digit_hour "9:30" "10:00" 570 600);
    try reflexivity; lia.
Defined.

(** ** Promo code form *)

Lemma code_char_not_whitespace (c : ascii) :
  code_char c = true -> is_js_whitespace c = false.
Proof.
  unfold code_char, is_js_whitespace. intros H.
  apply orb_true_iff in H as [H|H]; [apply orb_true_iff in H as [H|H]|].
  - apply in_range_spec in H.
    destruct (N_of_ascii c) as [|p]; [lia|].
    do 8 (destruct p as [p|p|]; try lia; try reflexivity).
  - apply in_range_spec in H.
    destruct (N_of_ascii c) as [|p]; [lia|].
    do 8 (destruct p as [p|p|]; try lia; try reflexivity).
  - apply Ascii.eqb_eq in H. subst c. reflexivity.
Qed.

Lemma trim_first_not_whitespace (c : ascii) (rest : string) :
  is_js_whitespace c = false -> truthy_str (trim (String c rest)) = true.
Proof.
  intros H. unfold trim. simpl. rewrite H. simpl. rewrite H. reflexivity.
Qed.

(** X17. The promo code field is accepted exactly when the code is not
    empty and made of upper-case letters, digits and underscores only; the
    "required" message is given exactly for an empty or all-white-space
    code, and the format message exactly for every other rejected code: one
    that is not all white space and has a character outside the class. *)
Theorem validate_code_spec (code : string) :
  (validate_code code = None
   <-> code <> "" /\ all_chars code_char code = true)
  /\ (validate_code code = Some "Promo code is required"
      <-> whitespace_only code = true)
  /\ (validate_code code
      = Some "Promo code should contain only uppercase letters, numbers, and underscores"
      <-> whitespace_only code = false /\ all_chars code_char code = false).
Proof.
  unfold validate_code.
  destruct (truthy_str (trim code)) eqn:Et; simpl.
  - assert (Hws : whitespace_only code = false).
    { destruct (whitespace_only code) eqn:E; [|reflexivity].
      apply trim_whitespace_only in E. rewrite E in Et. discriminate. }
    rewrite Hws.
    destruct code as [|c rest]; [discriminate|]. simpl.
    destruct (code_char c && all_chars code_char rest); simpl.
    + split; [|split].
      * split; [intros _; split; [discriminate | reflexivity] | reflexivity].
      * split; discriminate.
      * split; [discriminate | intros [_ H]; discriminate].
    + split; [|split].
      * split; [discriminate | intros [_ H]; discriminate].
      * split; discriminate.
      * split; [intros _; split; reflexivity | reflexivity].
  - assert (Hws : whitespace_only code = true).
    { apply trim_whitespace_only. unfold truthy_str in Et.
      apply negb_false_iff, String.eqb_eq in Et. exact Et. }
    rewrite Hws. split; [|split].
    + split; [discriminate|]. intros [Hne Hall].
      destruct code as [|c rest]; [congruence|]. simpl in Hall, Hws.
      apply andb_true_iff in Hall as [Hc _]. apply andb_true_iff in Hws as [Hw _].
      rewrite (code_char_not_whitespace c Hc) in Hw. discriminate.
    + split; reflexivity.
    + split; [discriminate | intros [H _]; discriminate].
Qed.

(** ** Feeds keyed by id *)

Section FeedFacts.

Context {A : Type} (key : A -> string).

Lemma feed_listed_true (k : string) (l : list A) :
  feed_listed key k l = true <-> exists x, In x l /\ key x = k.
Proof.
  unfold feed_listed. rewrite existsb_exists.
  split; intros (x & Hin & H); exists x; split; try assumption;
    now apply String.eqb_eq.
Qed.

Lemma feed_listed_keys (k : string) (l : list A) :
  feed_listed key k l = true <-> In k (map key l).
Proof.
  rewrite feed_listed_true, in_map_iff.
  split; intros (x & H1 & H2); exists x; tauto.
Qed.

Lemma feed_insert_front_idem (a : A) (l : list A) :
  feed_insert_front key a (feed_insert_front key a l) = feed_insert_front key a l.
Proof.
  unfold feed_insert_front.
  destruct (feed_listed key (key a) l) eqn:E; [now rewrite E|].
  unfold feed_listed at 1. simpl. rewrite String.eqb_refl. reflexivity.
Qed.

Lemma feed_listed_app (k : string) (l1 l2 : list A) :
  feed_listed key k (l1 ++ l2) = feed_listed key k l1 || feed_listed key k l2.
Proof. unfold feed_listed. apply existsb_app. Qed.

Lemma feed_insert_back_idem (a : A) (l : list A) :
  feed_insert_back key a (feed_insert_back key a l) = feed_insert_back key a l.
Proof.
  unfold feed_insert_back.
  destruct (feed_listed key (key a) l) eqn:E; [now rewrite E|].
  rewrite feed_listed_app, E. unfold feed_listed. simpl.
  rewrite String.eqb_refl. reflexivity.
Qed.

Lemma feed_update_keys (a : A) (l : list A) :
  map key (feed_update key a l) = map key l.
Proof.
  unfold feed_update. rewrite map_map. apply map_ext. intros x.
  destruct (String.eqb_spec (key x) (key a)); congruence.
Qed.

Lemma feed_update_absent (a : A) (l : list A) :
  feed_listed key (key a) l = false -> feed_update key a l = l.
Proof.
  unfold feed_update, feed_listed.
  induction l as [|x l IH]; intros H; [reflexivity|].
  simpl in H. apply orb_false_iff in H as [Hx Hl].
  simpl. rewrite Hx. f_equal. now apply IH.
Qed.

Lemma feed_delete_sublist (a : A) (l : list A) :
  sublist (feed_delete key a l) l.
Proof.
  unfold feed_delete. induction l as [|x l IH]; simpl.
  - constructor.
  - destruct (negb _); [now apply sublist_skip | now apply sublist_cons].
Qed.

Lemma feed_delete_unlisted (a : A) (l : list A) :
  feed_listed key (key a) (feed_delete key a l) = false.
Proof.
  destruct (feed_listed key (key a) (feed_delete key a l)) eqn:E; [|reflexivity].
  apply feed_listed_true in E as (x & Hin & Hk).
  unfold feed_delete in Hin. apply filter_In in Hin as [_ Hx].
  apply negb_true_iff, String.eqb_neq in Hx. contradiction.
Qed.

Lemma feed_NoDup_front (a : A) (l : list A) :
  NoDup (map key l) -> NoDup (map key (feed_insert_front key a l)).
Proof.
  intros H. unfold feed_insert_front.
  destruct (feed_listed key (key a) l) eqn:E; [exact H|].
  simpl. apply NoDup_cons. split; [|exact H].
  intros Hin. apply list_elem_of_In, feed_listed_keys in Hin. congruence.
Qed.

Lemma feed_NoDup_back (a : A) (l : list A) :
  NoDup (map key l) -> NoDup (map key (feed_insert_back key a l)).
Proof.
  intros H. unfold feed_insert_back.
  destruct (feed_listed key (key a) l) eqn:E; [exact H|].
  rewrite map_app. simpl. apply NoDup_app. split; [exact H|]. split.
  - intros k Hk Hk'. apply list_elem_of_In in Hk' as [<-|[]].
    apply list_elem_of_In, feed_listed_keys in Hk. congruence.
  - apply NoDup_singleton.
Qed.

Lemma feed_NoDup_delete (a : A) (l : list A) :
  NoDup (map key l) -> NoDup (map key (feed_delete key a l)).
Proof.
  intros H.
  assert (Hs : sublist (key <$> feed_delete key a l) (key <$> l))
    by apply fmap_sublist, feed_delete_sublist.
  eapply sublist_NoDup; eassumption.
Qed.

End FeedFacts.

(** X18. The promo code feed: an insert event for a code that is not
    listed puts it at the end of the list, a repeated insert changes nothing
    more, an update event for a code that is not listed is dropped, and
    whatever event arrives a list without two codes of the same id stays
    one. *)
Theorem promoCodeSubscription_feed (payload : Payload PromoCode.t)
    (code : PromoCode.t) (prev next : list PromoCode.t) :
  (promoCodes_on_insert code (promoCodes_on_insert code prev)
   = promoCodes_on_insert code prev)
  /\ ((forall c, In c prev -> PromoCode.id c <> PromoCode.id code) ->
      promoCodes_on_insert code prev = prev ++ [code]
      /\ promoCodes_on_update code prev = prev)
  /\ (NoDup (map PromoCode.id prev) ->
      promoCodeSubscription payload prev = Some next ->
      NoDup (map PromoCode.id next)).
Proof.
  split; [exact (feed_insert_back_idem PromoCode.id code prev)|]. split.
  - intros Habs.
    assert (E : feed_listed PromoCode.id (PromoCode.id code) prev = false).
    { destruct (feed_listed _ _ prev) eqn:E; [|reflexivity].
      apply feed_listed_true in E as (c & Hin & Hc). exfalso.
      exact (Habs c Hin Hc). }
    split.
    + unfold promoCodes_on_insert. fold (feed_listed PromoCode.id (PromoCode.id code) prev).
      now rewrite E.
    + exact (feed_update_absent PromoCode.id code prev E).
  - intros H. unfold promoCodeSubscription.
    destruct (eventType payload).
    + destruct (new payload) as [c|]; [|discriminate]. intros Hn. inversion Hn.
      exact (feed_NoDup_back PromoCode.id c prev H).
    + destruct (new payload) as [c|]; [|discriminate]. intros Hn. inversion Hn.
      change (promoCodes_on_update c prev) with (feed_update PromoCode.id c prev).
      now rewrite feed_update_keys.
    + destruct (old payload) as [c|]; [|discriminate]. intros Hn. inversion Hn.
      exact (feed_NoDup_delete PromoCode.id c prev H).
Qed.

Lemma promoCodeSubscription_feed_witness :
  (forall c, In c [SAVE20 49] -> PromoCode.id c <> "p2")
  /\ NoDup (map PromoCode.id [SAVE20 49])
  /\ promoCodes_on_insert
       (PromoCode.mk "p2" "WELCOME" "inf2" 10 5 None None "2025-02-01T00:00:00Z")
       [SAVE20 49]
     = [SAVE20 49;
        PromoCode.mk "p2" "WELCOME" "inf2" 10 5 None None "2025-02-01T00:00:00Z"]
  /\ NoDup (map PromoCode.id
              [SAVE20 49;
               PromoCode.mk "p2" "WELCOME" "inf2" 10 5 None None
                            "2025-02-01T00:00:00Z"]).
Proof.
  set (p2 := PromoCode.mk "p2" "WELCOME" "inf2" 10 5 None None "2025-02-01T00:00:00Z").
  assert (Habs : forall c, In c [SAVE20 49] -> PromoCode.id c <> PromoCode.id p2).
  { intros c [<-|[]]. discriminate. }
  assert (Hnd : NoDup (map PromoCode.id [SAVE20 49])) by apply NoDup_singleton.
  destruct (promoCodeSubscription_feed (mkPayload INSERT (Some p2) None) p2
              [SAVE20 49] [SAVE20 49; p2]) as (_ & H2 & H3).
  split; [exact Habs|]. split; [exact Hnd|].
  split; [exact (proj1 (H2 Habs)) | exact (H3 Hnd eq_refl)].
Defined.

(** X19. The withdrawal feed: an insert event for a request that is not
    listed puts it at the front, a repeated insert changes nothing more, an
    update event for a request that is not listed is dropped, after a
    delete event no request with that id is listed, and whatever event
    arrives a list without two requests of the same id stays one. *)
Theorem withdrawalSubscription_feed (payload : Payload WithdrawalRequest.t)
    (r : WithdrawalRequest.t) (prev next : list WithdrawalRequest.t) :
  (withdrawals_on_insert r (withdrawals_on_insert r prev)
   = withdrawals_on_insert r prev)
  /\ ((forall x, In x prev -> WithdrawalRequest.id x <> WithdrawalRequest.id r) ->
      withdrawals_on_insert r prev = r :: prev
      /\ withdrawals_on_update r prev = prev)
  /\ (forall x, In x (withdrawals_on_delete r prev) ->
                WithdrawalRequest.id x <> WithdrawalRequest.id r)
  /\ (NoDup (map WithdrawalRequest.id prev) ->
      withdrawalSubscription payload prev = Some next ->
      NoDup (map WithdrawalRequest.id next)).
Proof.
  split; [exact (feed_insert_front_idem WithdrawalRequest.id r prev)|]. split.
  - intros Habs.
    assert (E : feed_listed WithdrawalRequest.id (WithdrawalRequest.id r) prev = false).
    { destruct (feed_listed _ _ prev) eqn:E; [|reflexivity].
      apply feed_listed_true in E as (c & Hin & Hc). exfalso.
      exact (Habs c Hin Hc). }
    split.
    + unfold withdrawals_on_insert.
      fold (feed_listed WithdrawalRequest.id (WithdrawalRequest.id r) prev).
      now rewrite E.
    + exact (feed_update_absent WithdrawalRequest.id r prev E).
  - split.
    + intros x Hin Hx.
      pose proof (feed_delete_unlisted WithdrawalRequest.id r prev) as E.
      assert (E' : feed_listed WithdrawalRequest.id (WithdrawalRequest.id r)
                     (feed_delete WithdrawalRequest.id r prev) = true)
        by (apply feed_listed_true; exists x; split; assumption).
      congruence.
    + intros H. unfold withdrawalSubscription.
      destruct (eventType payload).
      * destruct (new payload) as [c|]; [|discriminate]. intros Hn. inversion Hn.
        exact (feed_NoDup_front WithdrawalRequest.id c prev H).
      * destruct (new payload) as [c|]; [|discriminate]. intros Hn. inversion Hn.
        change (withdrawals_on_update c prev)
          with (feed_update WithdrawalRequest.id c prev).
        now rewrite feed_update_keys.
      * destruct (old payload) as [c|]; [|discriminate]. intros Hn. inversion Hn.
        exact (feed_NoDup_delete WithdrawalRequest.id c prev H).
Qed.

Lemma withdrawalSubscription_feed_witness :
  (forall x, In x [request_w2] ->
             WithdrawalRequest.id x <> WithdrawalRequest.id request_w1)
  /\ NoDup (map WithdrawalRequest.id [request_w2])
  /\ withdrawals_on_insert request_w1 [request_w2] = [request_w1; request_w2]
  /\ withdrawals_on_update request_w1 [request_w2] = [request_w2]
  /\ NoDup (map WithdrawalRequest.id [request_w1; request_w2]).
Proof.
  assert (Habs : forall x, In x [request_w2] ->
                   WithdrawalRequest.id x <> WithdrawalRequest.id request_w1).
  { intros x [<-|[]]. discriminate. }
  assert (Hnd : NoDup (map WithdrawalRequest.id [request_w2]))
    by apply NoDup_singleton.
  destruct (withdrawalSubscription_feed (mkPayload INSERT (Some request_w1) None)
              request_w1 [request_w2] [request_w1; request_w2])
    as (_ & H2 & _ & H4).
  destruct (H2 Habs) as [Hins Hupd].
  split; [exact Habs|]. split; [exact Hnd|].
  split; [exact Hins|]. split; [exact Hupd | exact (H4 Hnd eq_refl)].
Defined.

(** ** Status banner editor *)

Lemma handleInputChange_ok (value : string) (st : BannerState) :
  banner_ok st -> banner_ok (handleInputChange value st).
Proof.
  unfold banner_ok, handleInputChange. intros [H1 H2].
  destruct (Nat.leb_spec (String.length value) MAX_CHARACTERS); simpl.
  - split; [assumption | reflexivity].
  - split; assumption.
Qed.

(** X20. Typing into the banner editor never takes the text beyond 100
    characters: a longer value is ignored altogether, a value within the
    limit becomes the text, with its length as the count and the
    unsaved-changes flag set exactly when it differs from the saved text; so
    after any sequence of inputs the text is within the limit and the count
    is its length. *)
Theorem handleInputChange_limit (values : list string) (value : string)
    (st : BannerState) :
  ((MAX_CHARACTERS < String.length value)%nat -> handleInputChange value st = st)
  /\ ((String.length value <= MAX_CHARACTERS)%nat ->
      handleInputChange value st
      = mkBanner value (originalMessage st) (String.length value)
                 (bool_decide (value <> originalMessage st)))
  /\ (banner_ok st ->
      banner_ok (fold_left (fun s v => handleInputChange v s) values st)).
Proof.
  split; [|split].
  - intros H. unfold handleInputChange.
    destruct (Nat.leb_spec (String.length value) MAX_CHARACTERS); [lia | reflexivity].
  - intros H. unfold handleInputChange.
    destruct (Nat.leb_spec (String.length value) MAX_CHARACTERS); [|lia].
    f_equal. destruct (String.eqb_spec value (originalMessage st)); simpl.
    + symmetry. apply bool_decide_eq_false. tauto.
    + symmetry. apply bool_decide_eq_true. exact n.
  - revert st. induction values as [|v values IH]; intros st H; simpl.
    + exact H.
    + apply IH. now apply handleInputChange_ok.
Qed.

Lemma handleInputChange_limit_witness :
  (String.length "Back at 5pm" <= MAX_CHARACTERS)%nat
  /\ banner_ok (mkBanner "" "" 0 false)
  /\ handleInputChange "Back at 5pm" (mkBanner "" "" 0 false)
     = mkBanner "Back at 5pm" "" 11
                (bool_decide ("Back at 5pm" <> originalMessage (mkBanner "" "" 0 false)))
  /\ banner_ok (fold_left (fun s v => handleInputChange v s)
                          ["Back"; "Back at 5pm"] (mkBanner "" "" 0 false)).
Proof.
  assert (Hlen : (String.length "Back at 5pm" <= MAX_CHARACTERS)%nat)
    by (unfold MAX_CHARACTERS; simpl; lia).
  assert (Hok : banner_ok (mkBanner "" "" 0 false))
    by (split; [apply Nat.le_0_l | reflexivity]).
  destruct (handleInputChange_limit ["Back"; "Back at 5pm"] "Back at 5pm"
              (mkBanner "" "" 0 false)) as (_ & H2 & H3).
  split; [exact Hlen|]. split; [exact Hok|].
  split; [exact (H2 Hlen) | exact (H3 Hok)].
Defined.

(** ** Status message service *)

Lemma banner_request_no_fault {A} (r : BannerRequest)
    (answer : list StatusMessage.t -> Response A * list StatusMessage.t)
    (w : BannerWorld) :
  banner_no_fault 0 w ->
  banner_request r answer w
  = (inr (fst (answer (status_message w))),
     banner_after r (snd (answer (status_message w))) w).
Proof.
  unfold banner_no_fault, banner_request, banner_after. intros H.
  destruct (banner_faults w) as [|[msg|] fs]; simpl in *; try discriminate;
    destruct (answer (status_message w)); reflexivity.
Qed.

Lemma banner_request_fault {A} (r : BannerRequest)
    (answer : list StatusMessage.t -> Response A * list StatusMessage.t)
    (w : BannerWorld) (msg : string) :
  mjoin (banner_faults w !! 0%nat) = Some msg ->
  banner_request r answer w
  = (inr (mkResponse None (Some msg)), banner_after r (status_message w) w).
Proof.
  unfold banner_request, banner_after. intros H.
  destruct (banner_faults w) as [|[m|] fs]; simpl in *; try discriminate.
  inversion H. reflexivity.
Qed.

Lemma banner_no_fault_after (k : nat) (r : BannerRequest)
    (rows : list StatusMessage.t) (w : BannerWorld) :
  banner_no_fault k (banner_after r rows w) <-> banner_no_fault (S k) w.
Proof.
  unfold banner_no_fault, banner_after. simpl. rewrite lookup_drop. reflexivity.
Qed.

Section BannerFacts.

Variable latest : list StatusMessage.t -> option StatusMessage.t.
Variable fresh_id : list StatusMessage.t -> string.
Variable now : string.

Lemma getStatusMessage_no_fault (w : BannerWorld) :
  banner_no_fault 0 w ->
  getStatusMessage latest w
  = (inr (mkResponse (latest (status_message w)) None),
     banner_after SelectLatestMessage (status_message w) w).
Proof.
  intros H. unfold getStatusMessage, btry_catch, bbind, status_select_latest.
  rewrite banner_request_no_fault by exact H. simpl.
  destruct (latest (status_message w)); reflexivity.
Qed.

Lemma getStatusMessage_fault (w : BannerWorld) (msg : string) :
  mjoin (banner_faults w !! 0%nat) = Some msg ->
  getStatusMessage latest w
  = (inr (mkResponse None (Some msg)),
     banner_after SelectLatestMessage (status_message w) w).
Proof.
  intros H. unfold getStatusMessage, btry_catch, bbind, status_select_latest.
  rewrite (banner_request_fault _ _ w msg H). reflexivity.
Qed.

(** The latest row is a row of the table, and a table with rows has one. *)
Hypothesis latest_in :
  forall rows row, latest rows = Some row -> In row rows.
Hypothesis latest_some :
  forall rows, rows <> [] -> latest rows <> None.

(** X21. With both requests answered, saving the banner keeps the table at
    one row: an empty table gets one row carrying the message, and on a
    table with rows the latest row (and no other id) gets the message and
    the time in place, the number of rows unchanged. Either way no error is
    returned. *)
Theorem updateStatusMessage_in_place (message : string) (w : BannerWorld) :
  banner_no_fault 0 w -> banner_no_fault 1 w ->
  let result := fst (updateStatusMessage latest fresh_id now message w) in
  let rows' := status_message (snd (updateStatusMessage latest fresh_id now message w)) in
  (exists d, result = inr (mkResponse d None))
  /\ (status_message w = [] ->
      rows' = [StatusMessage.mk (fresh_id []) message now now])
  /\ (status_message w <> [] ->
      length rows' = length (status_message w)
      /\ exists row,
           latest (status_message w) = Some row
           /\ In (set_message message now row) rows'
           /\ rows' = map (fun x => if String.eqb (StatusMessage.id x)
                                                  (StatusMessage.id row)
                                    then set_message message now x else x)
                          (status_message w)).
Proof.
  intros H0 H1. cbv zeta.
  unfold updateStatusMessage, btry_catch, bbind.
  rewrite (getStatusMessage_no_fault w H0). cbn [data].
  assert (H1' : banner_no_fault 0
                  (banner_after SelectLatestMessage (status_message w) w))
    by (now apply banner_no_fault_after).
  destruct (latest (status_message w)) as [row|] eqn:El.
  - unfold status_update. rewrite banner_request_no_fault by exact H1'.
    cbn [fst snd error data banner_after status_message]. unfold bret.
    cbn [fst snd status_message].
    split; [eexists; reflexivity|]. split.
    + intros E. rewrite E in El. apply latest_in in El. contradiction.
    + intros _. split; [apply length_map|].
      exists row. split; [reflexivity|]. split; [|reflexivity].
      apply in_map_iff. exists row. rewrite String.eqb_refl.
      split; [reflexivity | now apply latest_in].
  - unfold status_insert. rewrite banner_request_no_fault by exact H1'.
    cbn [fst snd error data banner_after status_message]. unfold bret.
    cbn [fst snd status_message].
    split; [eexists; reflexivity|]. split.
    + intros E. rewrite E. reflexivity.
    + intros Hne. exfalso. exact (latest_some _ Hne El).
Qed.

(** X22. When the look-up of the existing message fails, the failure is
    taken for "no message yet": if the next request is answered a new row
    is inserted behind the rows that were there, and the caller is told of
    no error. *)
Theorem updateStatusMessage_lookup_fails (message : string) (w : BannerWorld)
    (msg : string) :
  mjoin (banner_faults w !! 0%nat) = Some msg ->
  banner_no_fault 1 w ->
  let row := StatusMessage.mk (fresh_id (status_message w)) message now now in
  updateStatusMessage latest fresh_id now message w
  = (inr (mkResponse (Some row) None),
     banner_after (InsertMessage message now now) (status_message w ++ [row])
       (banner_after SelectLatestMessage (status_message w) w)).
Proof.
  intros H0 H1. cbv zeta.
  unfold updateStatusMessage, btry_catch, bbind.
  rewrite (getStatusMessage_fault w msg H0). cbn [data].
  unfold status_insert.
  rewrite banner_request_no_fault by (now apply banner_no_fault_after).
  reflexivity.
Qed.

(** X23. Resetting the banner: when the look-up fails the function reports
    neither an error nor a deletion and leaves the table alone; when both
    requests are answered and the table has rows, the rows with the id of
    the latest one are gone, the others kept, and [true] is returned. *)
Theorem deleteStatusMessage_outcomes (w : BannerWorld) :
  (forall msg,
     mjoin (banner_faults w !! 0%nat) = Some msg ->
     deleteStatusMessage latest w
     = (inr (mkResponse None None),
        banner_after SelectLatestMessage (status_message w) w))
  /\ (forall row,
        banner_no_fault 0 w -> banner_no_fault 1 w ->
        latest (status_message w) = Some row ->
        fst (deleteStatusMessage latest w) = inr (mkResponse (Some true) None)
        /\ forall x,
             In x (status_message (snd (deleteStatusMessage latest w)))
             <-> In x (status_message w)
                 /\ StatusMessage.id x <> StatusMessage.id row).
Proof.
  unfold deleteStatusMessage, btry_catch, bbind. split.
  - intros msg H. rewrite (getStatusMessage_fault w msg H). reflexivity.
  - intros row H0 H1 El. rewrite (getStatusMessage_no_fault w H0). cbn [data].
    rewrite El. unfold status_delete.
    rewrite banner_request_no_fault by (now apply banner_no_fault_after).
    cbn [fst snd error data banner_after status_message]. unfold bret.
    cbn [fst snd status_message]. split; [reflexivity|].
    intros x. unfold banner_after. cbn [status_message].
    rewrite filter_In, negb_true_iff, String.eqb_neq. reflexivity.
Qed.

End BannerFacts.

Lemma latest_head_in (rows : list StatusMessage.t) (row : StatusMessage.t) :
  latest_head rows = Some row -> In row rows.
Proof. destruct rows; simpl; intros H; inversion H. now left. Qed.

Lemma latest_head_some (rows : list StatusMessage.t) :
  rows <> [] -> latest_head rows <> None.
Proof. destruct rows; simpl; congruence. Qed.

Lemma updateStatusMessage_in_place_witness :
  banner_no_fault 0 banner_one /\ banner_no_fault 1 banner_one
  /\ status_message banner_one <> []
  /\ status_message
       (snd (updateStatusMessage latest_head fresh_m9 "2025-03-14T09:00:00.000Z"
               "Back at 6pm" banner_one))
     = [set_message "Back at 6pm" "2025-03-14T09:00:00.000Z" banner_row].
Proof.
  split; [reflexivity|]. split; [reflexivity|]. split; [discriminate|].
  destruct (updateStatusMessage_in_place latest_head fresh_m9
              "2025-03-14T09:00:00.000Z" latest_head_in latest_head_some
              "Back at 6pm" banner_one eq_refl eq_refl) as (_ & _ & H).
  assert (Hne : status_message banner_one <> []) by discriminate.
  destruct (H Hne) as (_ & row & Hl & _ & Hrows).
  inversion Hl; subst row. exact Hrows.
Defined.

Lemma updateStatusMessage_lookup_fails_witness :
  mjoin (banner_faults banner_fetch_denied !! 0%nat) = Some "permission denied"
  /\ banner_no_fault 1 banner_fetch_denied
  /\ status_message
       (snd (updateStatusMessage latest_head fresh_m9 "2025-03-14T09:00:00.000Z"
               "Back at 6pm" banner_fetch_denied))
     = [banner_row;
        StatusMessage.mk "m9" "Back at 6pm" "2025-03-14T09:00:00.000Z"
                         "2025-03-14T09:00:00.000Z"].
Proof.
  split; [reflexivity|]. split; [reflexivity|].
  rewrite (updateStatusMessage_lookup_fails latest_head fresh_m9
             "2025-03-14T09:00:00.000Z" "Back at 6pm" banner_fetch_denied
             "permission denied" eq_refl eq_refl).
  reflexivity.
Defined.

Lemma deleteStatusMessage_outcomes_witness :
  (mjoin (banner_faults banner_fetch_denied !! 0%nat) = Some "permission denied"
   /\ deleteStatusMessage latest_head banner_fetch_denied
      = (inr (mkResponse None None),
         banner_after SelectLatestMessage (status_message banner_fetch_denied)
                      banner_fetch_denied))
  /\ (banner_no_fault 0 banner_one /\ banner_no_fault 1 banner_one
      /\ latest_head (status_message banner_one) = Some banner_row
      /\ fst (deleteStatusMessage latest_head banner_one)
         = inr (mkResponse (Some true) None)).
Proof.
  split.
  - split; [reflexivity|].
    destruct (deleteStatusMessage_outcomes latest_head banner_fetch_denied)
      as [H _].
    exact (H "permission denied" eq_refl).
  - split; [reflexivity|]. split; [reflexivity|]. split; [reflexivity|].
    destruct (deleteStatusMessage_outcomes latest_head banner_one) as [_ H].
    exact (proj1 (H banner_row eq_refl eq_refl eq_refl)).
Defined.

(** ** More on the withdrawal functions, the updater and the classifier *)

(** X24. The [rejectWithdrawal] of lib/supabase.js, when its fetch is
    answered with the record: it sends the fetch and then one update whose
    object sets the status to rejected, has no field besides status and
    notes, and carries the note exactly when the fetched record has a
    [notes] field. *)
Theorem Lib_rejectWithdrawal_notes_guard (id notes : string) (w : World)
    (row : JsObject) :
  influencer_withdrawals (db w) !! id = Some row ->
  no_fault 0 w ->
  exists updateObj,
    log (snd (Lib.rejectWithdrawal id notes w))
    = log w ++ [SelectWithdrawalSingle id; UpdateWithdrawal id updateObj]
    /\ updateObj !! "status" = Some (VStr "rejected")
    /\ (updateObj !! "notes"
        = if Lib.has_key "notes" row then Some (VStr notes) else None)
    /\ (forall k, k <> "status" -> k <> "notes" -> updateObj !! k = None).
Proof.
  intros Hrow H0.
  destruct (Lib_rejectWithdrawal_guarded id notes w row Hrow H0)
    as (obj & Hlog & Hst & Hkey & Hnotes & Hothers).
  exists obj. split; [exact Hlog|]. split; [exact Hst|]. split; [|exact Hothers].
  destruct (Lib.has_key "notes" row) eqn:E.
  - now apply Hnotes.
  - unfold Lib.has_key in Hkey. destruct (obj !! "notes"); [discriminate | reflexivity].
Qed.

Lemma Lib_rejectWithdrawal_notes_guard_witness :
  influencer_withdrawals (db w_with_notes) !! "w2" = Some row_with_notes
  /\ no_fault 0 w_with_notes
  /\ exists updateObj,
       log (snd (Lib.rejectWithdrawal "w2" "duplicate request" w_with_notes))
       = log w_with_notes
         ++ [SelectWithdrawalSingle "w2"; UpdateWithdrawal "w2" updateObj]
       /\ updateObj !! "status" = Some (VStr "rejected")
       /\ (updateObj !! "notes"
           = if Lib.has_key "notes" row_with_notes
             then Some (VStr "duplicate request") else None)
       /\ (forall k, k <> "status" -> k <> "notes" -> updateObj !! k = None).
Proof.
  split; [reflexivity|]. split; [reflexivity|].
  exact (Lib_rejectWithdrawal_notes_guard "w2" "duplicate request" w_with_notes
           row_with_notes eq_refl eq_refl).
Defined.

(** X25. When neither delete fails, [deleteRoom] returns no error, the row
    of the session is gone and no participation record of that session is
    left. *)
Theorem deleteRoom_both_steps (id : string) (w : World) :
  no_fault 0 w -> no_fault 1 w ->
  fst (Lib.deleteRoom id w) = inr None
  /\ rooms (db (snd (Lib.deleteRoom id w))) !! id = None
  /\ Forall (fun s => Session.room_id s <> id)
            (user_sessions (db (snd (Lib.deleteRoom id w))))
  /\ log (snd (Lib.deleteRoom id w))
     = log w ++ [DeleteUserSessions id; DeleteRoom id].
Proof.
  intros H0 H1. destruct (deleteRoom_ok id w H0 H1) as (Hr & Hroom & Hs).
  split; [exact Hr|]. split; [exact Hroom|]. split; [exact Hs|].
  unfold Lib.deleteRoom, try_catch, bind, user_sessions_delete, rooms_delete.
  rewrite request_no_fault by exact H0. simpl.
  rewrite request_no_fault by (now apply no_fault_after_request).
  simpl. now rewrite <- app_assoc.
Qed.

Lemma deleteRoom_both_steps_witness :
  no_fault 0 w_demo /\ no_fault 1 w_demo
  /\ fst (Lib.deleteRoom "r1" w_demo) = inr None
  /\ rooms (db (snd (Lib.deleteRoom "r1" w_demo))) !! "r1" = None.
Proof.
  split; [reflexivity|]. split; [reflexivity|].
  destruct (deleteRoom_both_steps "r1" w_demo eq_refl eq_refl) as (H1 & H2 & _).
  split; [exact H1 | exact H2].
Defined.

(** X26. A confirmed rejection with a real note sends exactly one request:
    the update of the selected withdrawal, carrying the note as typed, not
    trimmed. *)
Theorem handleConfirmReject_sends_note (ui : UiState) (w : World)
    (selected : WithdrawalRequest.t) :
  selectedWithdrawal ui = Some selected ->
  whitespace_only (notes ui) = false ->
  log (snd (PayoutManager.handleConfirmReject ui w))
  = log w ++ [UpdateWithdrawal (WithdrawalRequest.id selected)
                (<[ "notes" := VStr (notes ui) ]> {[ "status" := VStr "rejected" ]})].
Proof. apply handleConfirmReject_sends. Qed.

Lemma handleConfirmReject_sends_note_witness :
  whitespace_only " duplicate " = false
  /\ log (snd (PayoutManager.handleConfirmReject
                 (mkUi true (Some request_w1) " duplicate " None) w_legacy))
     = [UpdateWithdrawal "w1"
          (<[ "notes" := VStr " duplicate " ]> {[ "status" := VStr "rejected" ]})].
Proof.
  split; [reflexivity|].
  exact (handleConfirmReject_sends_note
           (mkUi true (Some request_w1) " duplicate " None) w_legacy request_w1
           eq_refl eq_refl).
Defined.

(** X27. Overlapping calls of the updater keep the counters non-negative
    too: in any interleaving of the fetch halves and the write halves of any
    calls, every parked count and every counter written is non-negative, and
    every room row afterwards is untouched or holds a non-negative counter. *)
Theorem run_schedule_never_negative (sched : list Step) (w : World) :
  Forall (fun p => 0 <= snd p) (fst (run_schedule sched ([], w)))
  /\ grows w (snd (run_schedule sched ([], w))).
Proof. apply run_schedule_grows. constructor. Qed.



Section ClassifierEdges.

Variable Number : string -> jsnum.
Variable Date_parse : string -> DateObj.

(** X29. A room whose start time, end time or date is missing or empty is
    shown as [Inactive], whatever the clock and the occupancy. *)
Theorem getStatusBadge_missing_field (now : LocalNow) (room : Room.t) :
  truthy_ostr (Room.session_start_time room) = false
  \/ truthy_ostr (Room.session_end_time room) = false
  \/ truthy_ostr (Room.session_date room) = false ->
  getStatusBadge Number Date_parse now room = Inactive.
Proof.
  intros H. unfold getStatusBadge.
  destruct (isActive Number Date_parse now room) eqn:Ea; [|reflexivity].
  exfalso. apply isActive_iff in Ea.
  destruct Ea as (sh & sm & eh & em & Hs & He & Hd & _).
  assert (Hp : forall o d, parseTimeString Number Date_parse o = Some d ->
                           truthy_ostr o = true).
  { intros [t|] d; simpl; [|discriminate].
    destruct (truthy_str t); [reflexivity | discriminate]. }
  destruct H as [H|[H|H]].
  - rewrite (Hp _ _ Hs) in H. discriminate.
  - rewrite (Hp _ _ He) in H. discriminate.
  - rewrite Hd in H. simpl in H. rewrite format_ymd_truthy in H. discriminate.
Qed.

End ClassifierEdges.

Lemma getStatusBadge_missing_field_witness :
  truthy_ostr (Room.session_start_time room_unscheduled) = false
  /\ getStatusBadge Number_digits no_iso now_noon room_unscheduled = Inactive.
Proof.
  split; [reflexivity|].
  apply (getStatusBadge_missing_field Number_digits no_iso now_noon room_unscheduled).
  left. reflexivity.
Defined.
